(** * weewx APRS uploader ([bin/weewx/restful.py]): a shallow embedding

    The uploader encodes a weather record as an APRS weather packet, decides
    whether the record may be posted, and drives a TNC over a serial line.
    This development embeds the Python code function by function:

    - Python values: [int] is [Z], [float] is a binary64 primitive float,
      [None] is [None]; a record is a finite map from field names to values;
    - exceptions: every fallible function returns a [result];
    - effects: the serial line and the sleeps are a trace of events kept in
      a [Machine]; the uploader's own state is the field [_lastpost];
    - strings are sequences of 8-bit characters, so [str.upper] and
      [str.encode] are their ASCII versions. *)

From Stdlib Require Import ZArith String Ascii List Lia Bool.
From Stdlib Require Import Floats.
From stdpp Require Import base option list gmap strings.

Set Warnings "-inexact-float".
Local Open Scope string_scope.
Local Open Scope Z_scope.

(* ================================================================== *)
(** ** Python: exceptions and the error monad *)
(* ================================================================== *)

(** The exception classes the code can meet, each with its message.
    [APRSError] is the class declared at the top of the source; the others
    are Python's or pyserial's.  All of them derive from [Exception]. *)
Inductive exn : Type :=
  | KeyError (key : string)
  | IndexError (msg : string)
  | ValueError (msg : string)
  | TypeError (msg : string)
  | OverflowError (msg : string)
  | SerialException (msg : string)
  | APRSError (msg : string)
  | OtherError (msg : string).

(** [str(e)] *)
Definition exn_str (e : exn) : string :=
  match e with
  | KeyError k => "'" +:+ k +:+ "'"
  | IndexError m | ValueError m | TypeError m | OverflowError m
  | SerialException m | APRSError m | OtherError m => m
  end.

Definition is_SerialException (e : exn) : bool :=
  match e with SerialException _ => true | _ => false end.

Definition is_APRSError (e : exn) : bool :=
  match e with APRSError _ => true | _ => false end.

Definition is_ValueError (e : exn) : bool :=
  match e with ValueError _ => true | _ => false end.

Inductive result (A : Type) : Type :=
  | Ok (a : A)
  | Raise (e : exn).
Arguments Ok {A} a.
Arguments Raise {A} e.

Definition rbind {A B : Type} (m : result A) (k : A -> result B) : result B :=
  match m with
  | Ok a => k a
  | Raise e => Raise e
  end.

#[global] Instance result_ret : MRet result := @Ok.
#[global] Instance result_bind : MBind result :=
  fun A B k m => rbind m k.

Definition is_Ok {A : Type} (m : result A) : bool :=
  match m with Ok _ => true | Raise _ => false end.

(** What [raise obj] does: a [str] is not an exception, and raising one
    raises [TypeError] in its place (Python 3, and Python 2 since 2.6). *)
Definition raise_str {A : Type} (_ : string) : result A :=
  Raise (TypeError "exceptions must derive from BaseException").

(* ================================================================== *)
(** ** Python: numbers *)
(* ================================================================== *)

Inductive number : Type :=
  | PyInt (z : Z)
  | PyFloat (f : float).

(** [float(z)]: the nearest binary64 value, ties to even; an [int] beyond
    the range of [float] raises. *)
Definition float_of_Z (z : Z) : result float :=
  let f := SF2Prim (binary_normalize prec emax z 0 false) in
  if PrimFloat.is_infinity f
  then Raise (OverflowError "int too large to convert to float")
  else Ok f.

(** The value of a number: not a number, an infinity, or the exact
    fraction [num / den] with [den] positive.  A finite float is such a
    fraction with [den] a power of two. *)
Inductive extended : Type :=
  | NaN
  | NegInf
  | Finite (num den : Z)
  | PosInf.

Definition float_value (f : float) : extended :=
  match Prim2SF f with
  | S754_zero _ => Finite 0 1
  | S754_finite s m e =>
      let mz := if s then Z.neg m else Z.pos m in
      if 0 <=? e then Finite (mz * 2 ^ e) 1 else Finite mz (2 ^ (- e))
  | S754_infinity s => if s then NegInf else PosInf
  | S754_nan => NaN
  end.

(** [int(f)]: the integer part, towards zero. *)
Definition float_trunc (f : float) : result Z :=
  match float_value f with
  | Finite num den => Ok (Z.quot num den)
  | NaN => Raise (ValueError "cannot convert float NaN to integer")
  | NegInf | PosInf =>
      Raise (OverflowError "cannot convert float infinity to integer")
  end.

Definition py_int (v : number) : result Z :=
  match v with
  | PyInt z => Ok z
  | PyFloat f => float_trunc f
  end.

(** Mixed arithmetic converts the [int] operand to [float] first. *)
Definition py_arith (opz : Z -> Z -> Z) (opf : float -> float -> float)
    (a b : number) : result number :=
  match a, b with
  | PyInt x, PyInt y => Ok (PyInt (opz x y))
  | PyFloat x, PyFloat y => Ok (PyFloat (opf x y))
  | PyInt x, PyFloat y => x' ← float_of_Z x; Ok (PyFloat (opf x' y))
  | PyFloat x, PyInt y => y' ← float_of_Z y; Ok (PyFloat (opf x y'))
  end.

Definition py_sub : number -> number -> result number :=
  py_arith Z.sub PrimFloat.sub.
Definition py_mul : number -> number -> result number :=
  py_arith Z.mul PrimFloat.mul.

Definition value_of (v : number) : extended :=
  match v with
  | PyInt z => Finite z 1
  | PyFloat f => float_value f
  end.

(** Comparisons are exact, also between an [int] and a [float] (the int
    is not rounded to a float first); they are those of IEEE 754 between
    floats.  [None] is "unordered": an operand is not a number. *)
Definition extended_compare (a b : extended) : option comparison :=
  match a, b with
  | NaN, _ | _, NaN => None
  | NegInf, NegInf | PosInf, PosInf => Some Eq
  | NegInf, _ | _, PosInf => Some Lt
  | _, NegInf | PosInf, _ => Some Gt
  | Finite n1 d1, Finite n2 d2 => Some (n1 * d2 ?= n2 * d1)
  end.

Definition py_compare (a b : number) : option comparison :=
  extended_compare (value_of a) (value_of b).

Definition py_lt (a b : number) : bool :=
  match py_compare a b with Some Lt => true | _ => false end.
Definition py_gt (a b : number) : bool :=
  match py_compare a b with Some Gt => true | _ => false end.
Definition py_le (a b : number) : bool :=
  match py_compare a b with Some Lt | Some Eq => true | _ => false end.
Definition py_ge (a b : number) : bool :=
  match py_compare a b with Some Gt | Some Eq => true | _ => false end.
Definition py_eq (a b : number) : bool :=
  match py_compare a b with Some Eq => true | _ => false end.

(** A record value: a number or [None]. *)
Definition pyobj : Type := option number.

(** [a != b] on record values; [None] equals only [None]. *)
Definition pyobj_ne (a b : pyobj) : bool :=
  match a, b with
  | Some x, Some y => negb (py_eq x y)
  | None, None => false
  | _, _ => true
  end.

(* ================================================================== *)
(** ** Python: strings and the [d] format *)
(* ================================================================== *)

(** [str.upper] on one ASCII character. *)
Definition upper_ascii (c : ascii) : ascii :=
  let n := nat_of_ascii c in
  if ((97 <=? n) && (n <=? 122))%nat then ascii_of_nat (n - 32) else c.

Fixpoint upper (s : string) : string :=
  match s with
  | EmptyString => EmptyString
  | String c s' => String (upper_ascii c) (upper s')
  end.

Definition digit_char (d : Z) : ascii := ascii_of_nat (48 + Z.to_nat d).

(** The decimal digits of a non-negative integer, most significant first;
    [fuel] bounds the number of digits. *)
Fixpoint digits_aux (fuel : nat) (n : Z) (acc : string) : string :=
  match fuel with
  | O => acc
  | S fuel' =>
      let acc' := String (digit_char (n mod 10)) acc in
      if n / 10 =? 0 then acc' else digits_aux fuel' (n / 10) acc'
  end.

Definition digits (n : Z) : string :=
  digits_aux (S (Z.to_nat (Z.log2 n))) n EmptyString.

Fixpoint zeros (k : nat) : string :=
  match k with
  | O => EmptyString
  | S k' => String "0" (zeros k')
  end.

(** [f"{n:0Wd}"]: sign first, then zeros up to the width, then the digits;
    a number wider than the field is written in full. *)
Definition format_0d (width : nat) (n : Z) : string :=
  let ds := digits (Z.abs n) in
  if n <? 0
  then "-" +:+ zeros (width - 1 - String.length ds) +:+ ds
  else zeros (width - String.length ds) +:+ ds.

(* ================================================================== *)
(** ** Records and the external collaborators *)
(* ================================================================== *)

(** An observation record is a [dict] from field names to values. *)
Abbreviation record := (gmap string pyobj).

(** [record.get(key)]: [None] for a missing key and for a key bound to
    [None] alike. *)
Definition dict_get (r : record) (key : string) : pyobj :=
  default None (r !! key).

(** [record[key]] *)
Definition dict_item (r : record) (key : string) : result pyobj :=
  match r !! key with
  | Some v => Ok v
  | None => Raise (KeyError key)
  end.

(** [values[i]] on a list. *)
Definition list_item (l : list string) (i : nat) : result string :=
  match l !! i with
  | Some s => Ok s
  | None => Raise (IndexError "list index out of range")
  end.

Module weewx.
(** The unit-system tags of weewx. *)
Definition US : Z := 1.
Definition METRIC : Z := 16.
Definition METRICWX : Z := 17.
End weewx.

(** What the uploader calls and does not define: the clock formatting of
    Python's [time], weewx's position and unit helpers, and the archive
    (its latest good time stamp, and the record stored at a time stamp,
    which [extractRecordFrom] fetches). *)
Class Collaborators := {
  (** [time.strftime(fmt, time.gmtime(t))] *)
  gmtime_strftime : string -> pyobj -> result string;
  (** [weeutil.weeutil.latlon_string(ll, hemi, which)], as the f-string
      prints it *)
  latlon_string : float -> string * string -> string -> result string;
  (** [weewx.units.getStandardUnitType(unit_system, obs_type)] *)
  getStandardUnitType : pyobj -> string -> result (string * string);
  (** [weewx.units.convert((value, unit, group), target)[0]] *)
  convert : number * string * string -> string -> result number;
  archive : Type;
  lastGoodStamp : archive -> Z;
  extractRecordFrom : archive -> Z -> result (gmap string pyobj)
}.

(* ================================================================== *)
(** ** Configuration: [SerialConfig] and [APRSConfig] *)
(* ================================================================== *)

Module SerialConfig.
Definition VALID_PARITIES : gset string := {[ "N"; "E"; "O"; "M"; "S" ]}.

(** The message ends with the set as Python prints it; the order of the
    elements there is the set's own and is fixed here. *)
Definition validate_parity (parity : string) : result string :=
  let parity := upper parity in
  if bool_decide (parity ∉ VALID_PARITIES)
  then Raise (ValueError "Invalid parity value. Must be one of {'N', 'E', 'O', 'M', 'S'}")
  else Ok parity.
End SerialConfig.

Inductive APRSStatus : Type :=
  | DISABLED
  | STALE
  | INTERVAL_WAIT
  | NON_LATEST
  | INVALID_UNITS
  | SUCCESS.

#[global] Instance APRSStatus_eq_dec : EqDecision APRSStatus.
Proof. solve_decision. Defined.

(** [status.value] *)
Definition APRSStatus_value (s : APRSStatus) : string :=
  match s with
  | DISABLED => "Disabled"
  | STALE => "Stale"
  | INTERVAL_WAIT => "Interval Wait"
  | NON_LATEST => "Non Latest Record"
  | INVALID_UNITS => "Invalid Units"
  | SUCCESS => "Success"
  end.

Record APRSConfig : Type := mkAPRSConfig {
  station : string;
  latitude : float;
  longitude : float;
  hardware : string;
  port : string;
  baudrate : Z;
  databits : Z;
  parity : string;
  stopbits : Z;
  unproto : string;
  status_message : string;
  enabled : bool;
  interval : Z;
  stale : Z;
  max_tries : Z
}.

Definition set_station (s : string) (c : APRSConfig) : APRSConfig :=
  mkAPRSConfig s (latitude c) (longitude c) (hardware c) (port c)
    (baudrate c) (databits c) (parity c) (stopbits c) (unproto c)
    (status_message c) (enabled c) (interval c) (stale c) (max_tries c).

Definition set_parity (p : string) (c : APRSConfig) : APRSConfig :=
  mkAPRSConfig (station c) (latitude c) (longitude c) (hardware c) (port c)
    (baudrate c) (databits c) p (stopbits c) (unproto c)
    (status_message c) (enabled c) (interval c) (stale c) (max_tries c).

(** [-lo <= x <= hi] with [x] a float and integer bounds. *)
Definition between (lo : Z) (x : float) (hi : Z) : bool :=
  py_le (PyInt lo) (PyFloat x) && py_le (PyFloat x) (PyInt hi).

(** The dataclass constructor stores the fields as given and then runs
    [__post_init__] on the object; the caller gets the object only when
    no check raises. *)
Definition __post_init__ (self : APRSConfig) : result APRSConfig :=
  let self := set_station (upper (station self)) self in
  p ← SerialConfig.validate_parity (parity self);
  let self := set_parity p self in
  if negb (between (-90) (latitude self) 90)
  then Raise (ValueError "Latitude must be between -90 and 90 degrees")
  else if negb (between (-180) (longitude self) 180)
  then Raise (ValueError "Longitude must be between -180 and 180 degrees")
  else if interval self <? 0
  then Raise (ValueError "Interval cannot be negative")
  else if stale self <? 0
  then Raise (ValueError "Stale threshold cannot be negative")
  else if max_tries self <? 1
  then Raise (ValueError "Max tries must be at least 1")
  else Ok self.

(* ================================================================== *)
(** ** The packet encoder *)
(* ================================================================== *)

Section Encoder.
Context {collab : Collaborators}.

Definition _format_wind_temp (r : record) : result string :=
  values ← mapM (fun field =>
              match dict_get r field with
              | Some val => n ← py_int val; Ok (format_0d 3 n)
              | None => Ok "..."
              end)
            ["windDir"; "windSpeed"; "windGust"; "outTemp"];
  v0 ← list_item values 0; v1 ← list_item values 1;
  v2 ← list_item values 2; v3 ← list_item values 3;
  Ok ("_" +:+ v0 +:+ "/" +:+ v1 +:+ "g" +:+ v2 +:+ "t" +:+ v3).

Definition _format_rain (r : record) : result string :=
  values ← mapM (fun field =>
              match dict_get r field with
              | Some val =>
                  scaled ← py_mul val (PyInt 100);
                  n ← py_int scaled;
                  Ok (format_0d 3 n)
              | None => Ok "..."
              end)
            ["rain"; "rain24"; "dailyrain"];
  v0 ← list_item values 0; v1 ← list_item values 1;
  v2 ← list_item values 2;
  Ok ("r" +:+ v0 +:+ "p" +:+ v1 +:+ "P" +:+ v2).

Definition _format_barometer (r : record) : result string :=
  match dict_get r "barometer" with
  | None => Ok "b....."
  | Some baro =>
      us ← dict_item r "usUnits";
      unit_type ← getStandardUnitType us "barometer";
      baro_mbar ← convert (baro, unit_type.1, unit_type.2) "mbar";
      scaled ← py_mul baro_mbar (PyInt 10);
      n ← py_int scaled;
      Ok ("b" +:+ format_0d 5 n)
  end.

Definition _format_humidity (r : record) : result string :=
  match dict_get r "outHumidity" with
  | None => Ok "h.."
  | Some humidity =>
      if py_lt humidity (PyFloat 100)
      then n ← py_int humidity; Ok ("h" +:+ format_0d 2 n)
      else Ok "h00"
  end.

Definition _format_radiation (r : record) : result string :=
  match dict_get r "radiation" with
  | None => Ok ""
  | Some radiation =>
      if py_lt radiation (PyFloat 1000)
      then n ← py_int radiation; Ok ("L" +:+ format_0d 3 n)
      else if py_lt radiation (PyFloat 2000)
      then
        rest ← py_sub radiation (PyInt 1000);
        n ← py_int rest;
        Ok ("l" +:+ format_0d 3 n)
      else Ok ""
  end.

Definition hardware_str (config : APRSConfig) : string :=
  if String.eqb (hardware config) "VantagePro" then ".DsVP" else ".Unkn".

Definition format_weather_data (config : APRSConfig) (r : record)
    : result string :=
  dt ← dict_item r "dateTime";
  time_str ← gmtime_strftime "@%d%H%Mz" dt;
  lat_str ← latlon_string (latitude config) ("N", "S") "lat";
  lon_str ← latlon_string (longitude config) ("E", "W") "lon";
  let latlon_str := lat_str +:+ lon_str in
  wind_temp ← _format_wind_temp r;
  rain ← _format_rain r;
  baro ← _format_barometer r;
  humidity ← _format_humidity r;
  radiation ← _format_radiation r;
  Ok (time_str +:+ latlon_str +:+ wind_temp +:+ rain +:+ baro +:+ humidity
      +:+ radiation +:+ hardware_str config).
End Encoder.

(* ================================================================== *)
(** ** The uploader object, the serial line and the effect monad *)
(* ================================================================== *)

Record APRS : Type := mkAPRS {
  site : string;
  config : APRSConfig;
  _lastpost : option Z
}.


(** What the program does to the outside, in program order: the calls on
    the serial port, the sleeps, and the assignment to [self._lastpost]. *)
Inductive event : Type :=
  | EvOpen (port : string) (baudrate bytesize : Z) (parity : string)
           (stopbits : Z)
  | EvFlushOutput
  | EvFlushInput
  | EvWrite (data : string)
  | EvSleep (secs : Z)
  | EvClose
  | EvLastpost (ts : Z).

#[global] Instance event_eq_dec : EqDecision event.
Proof. solve_decision. Defined.

(** The machine: the uploader object, the trace so far, and the number of
    calls made on the serial port so far. *)
Record Machine : Type := mkMachine {
  aprs : APRS;
  trace : list event;
  calls : nat
}.

(** The serial device decides which call on the port raises: [faults k]
    is the exception of the [k]-th call, if it raises. *)
Definition Device : Type := nat -> option exn.

Definition io (A : Type) : Type := Machine -> result A * Machine.

Definition io_ret {A : Type} (a : A) : io A := fun m => (Ok a, m).

Definition io_bind {A B : Type} (c : io A) (k : A -> io B) : io B :=
  fun m =>
    match c m with
    | (Ok a, m') => k a m'
    | (Raise e, m') => (Raise e, m')
    end.

#[global] Instance io_mret : MRet io := @io_ret.
#[global] Instance io_mbind : MBind io := fun A B k c => io_bind c k.

Definition io_raise {A : Type} (e : exn) : io A := fun m => (Raise e, m).

(** A pure computation that may raise, run inside [io]. *)
Definition lift {A : Type} (r : result A) : io A := fun m => (r, m).

Definition get_self : io APRS := fun m => (Ok (aprs m), m).

(** [try: body except Exception as e: handler(e)] *)
Definition try_except {A : Type} (body : io A) (handler : exn -> io A)
    : io A :=
  fun m =>
    match body m with
    | (Ok a, m') => (Ok a, m')
    | (Raise e, m') => handler e m'
    end.

Definition log (ev : event) (m : Machine) : Machine :=
  mkMachine (aprs m) (trace m ++ [ev]) (calls m).

(** A call on the serial port: it raises when the device says so and
    leaves nothing in the trace then. *)
Definition serial_call (dev : Device) (ev : event) : io unit :=
  fun m =>
    let m' := mkMachine (aprs m) (trace m) (S (calls m)) in
    match dev (calls m) with
    | Some e => (Raise e, m')
    | None => (Ok tt, log ev m')
    end.

(** [time.sleep(secs)] *)
Definition sleep (secs : Z) : io unit := fun m => (Ok tt, log (EvSleep secs) m).

(** [with serial.Serial(...) as ser: body]: the port is opened by the
    constructor and closed when the block is left, normally or not. *)
Definition with_Serial {A : Type} (dev : Device) (c : APRSConfig)
    (body : io A) : io A :=
  fun m =>
    match serial_call dev
            (EvOpen (port c) (baudrate c) (databits c) (parity c) (stopbits c))
            m with
    | (Raise e, m1) => (Raise e, m1)
    | (Ok _, m1) => let '(r, m2) := body m1 in (r, log EvClose m2)
    end.

(** [for x in l: body(x)] *)
Fixpoint for_each {A : Type} (l : list A) (body : A -> io unit) : io unit :=
  match l with
  | [] => mret tt
  | x :: l' => _ ← body x; for_each l' body
  end.

(** [self._lastpost = ts] *)
Definition set_lastpost (ts : Z) : io unit :=
  fun m =>
    let self := aprs m in
    (Ok tt, log (EvLastpost ts)
              (mkMachine (mkAPRS (site self) (config self) (Some ts))
                 (trace m) (calls m))).

Definition ctrl_C : string := String "003"%char EmptyString.
Definition CR : string := String "013"%char EmptyString.

(* ================================================================== *)
(** ** The post gate, the TNC driver and [postData] *)
(* ================================================================== *)

(** Truth value of an [Optional[int]]: [None] and [0] are false. *)
Definition truthy (o : option Z) : bool :=
  match o with
  | Some z => negb (z =? 0)
  | None => false
  end.

Section Uploader.
Context {collab : Collaborators}.

(** [now] is what [time.time()] returns. *)
Definition _check_post_conditions (self : APRS) (arch : archive)
    (now : float) (time_ts : Z) : result APRSStatus :=
  if negb (enabled (config self)) then Ok DISABLED
  else
    let last_ts := lastGoodStamp arch in
    if negb (time_ts =? last_ts) then Ok NON_LATEST
    else
      how_old ← py_sub (PyFloat now) (PyInt time_ts);
      if py_gt how_old (PyInt (stale (config self))) then Ok STALE
      else
        if truthy (_lastpost self)
           && (time_ts - default 0 (_lastpost self) <? interval (config self))
        then Ok INTERVAL_WAIT
        else Ok SUCCESS.

Definition commands (c : APRSConfig) (packet : string)
    : list (string * Z) :=
  [ (ctrl_C, 1);
    ("mycall " +:+ station c +:+ CR, 1);
    ("unproto " +:+ unproto c +:+ CR, 1);
    ("conv" +:+ CR, 1);
    (packet +:+ CR, 1);
    (">" +:+ status_message c +:+ CR, 1);
    (ctrl_C, 0) ].

Definition _send_tnc_commands (self : APRS) (ser : Device)
    (packet : string) : io unit :=
  try_except
    (for_each (commands (config self) packet) (fun '(cmd, delay) =>
       _ ← serial_call ser (EvWrite cmd);
       if delay =? 0 then mret tt else sleep delay))
    (fun e =>
       if is_SerialException e
       then io_raise (APRSError ("Failed to send TNC commands: " +:+ exn_str e))
       else io_raise e).

Definition postData (arch : archive) (now : float) (time_ts : Z)
    (dev : Device) : io unit :=
  self ← get_self;
  status ← lift (_check_post_conditions self arch now time_ts);
  if negb (bool_decide (status = SUCCESS))
  then lift (raise_str "APRS: {status.value}")
  else
    r ← lift (extractRecordFrom arch time_ts);
    us ← lift (dict_item r "usUnits");
    if pyobj_ne us (Some (PyInt weewx.US))
    then lift (raise_str "APRS: Units must be US Customary.")
    else
      packet ← lift (format_weather_data (config self) r);
      _ ← try_except
            (with_Serial dev (config self)
               (_ ← serial_call dev EvFlushOutput;
                _ ← serial_call dev EvFlushInput;
                _send_tnc_commands self dev packet))
            (fun e =>
               if is_SerialException e
               then io_raise (APRSError ("Serial communication error: " +:+ exn_str e))
               else io_raise (APRSError ("Unexpected error during APRS upload: " +:+ exn_str e)));
      set_lastpost time_ts.
End Uploader.

(* ================================================================== *)
(** ** Stand-ins for the collaborators *)
(* ================================================================== *)

(** The collaborators are outside the uploader.  To run the embedding on
    concrete records, [Fixture] gives each of them a simple behaviour: the
    civil calendar for [time.gmtime], degrees and minutes for the position,
    one conversion factor for the pressure, and an archive that is a table
    of records.  The theorems below hold for every instance of
    [Collaborators]; the fixture only provides inputs to evaluate. *)
Module Fixture.

(** Day of the month of a day number counted from 1970-01-01. *)
Definition day_of_month (days : Z) : Z :=
  let z := days + 719468 in
  let doe := z mod 146097 in
  let yoe := (doe - doe / 1460 + doe / 36524 - doe / 146096) / 365 in
  let doy := doe - (365 * yoe + yoe / 4 - yoe / 100) in
  let mp := (5 * doy + 2) / 153 in
  doy - (153 * mp + 2) / 5 + 1.

Definition stamp (secs : Z) : string :=
  let sod := secs mod 86400 in
  "@" +:+ format_0d 2 (day_of_month (secs / 86400))
      +:+ format_0d 2 (sod / 3600)
      +:+ format_0d 2 (sod mod 3600 / 60) +:+ "z".

Definition fx_gmtime_strftime (fmt : string) (t : pyobj) : result string :=
  if negb (String.eqb fmt "@%d%H%Mz")
  then Raise (OtherError "format not supported by the stand-in")
  else
    match t with
    | Some (PyInt z) => Ok (stamp z)
    | Some (PyFloat f) =>
        match float_value f with
        | Finite num den => Ok (stamp (num / den))
        | _ => Raise (ValueError "Invalid value NaN (not a number)")
        end
    | None => Raise (OtherError "the clock is not part of the stand-in")
    end.

Definition fx_latlon_string (ll : float) (hemi : string * string)
    (which : string) : result string :=
  match float_value ll with
  | NaN | NegInf | PosInf => Raise (ValueError "not a finite angle")
  | Finite num den =>
      let hundredths := (2 * Z.abs num * 6000 + den) / (2 * den) in
      let width := if String.eqb which "lat" then 2%nat else 3%nat in
      Ok (format_0d width (hundredths / 6000)
          +:+ format_0d 2 (hundredths mod 6000 / 100) +:+ "."
          +:+ format_0d 2 (hundredths mod 100)
          +:+ (if 0 <=? num then hemi.1 else hemi.2))
  end.

Definition fx_getStandardUnitType (us : pyobj) (obs : string)
    : result (string * string) :=
  match us with
  | Some (PyInt 1) => Ok ("inHg", "group_pressure")
  | Some (PyInt 16) | Some (PyInt 17) => Ok ("mbar", "group_pressure")
  | _ => Raise (ValueError "unknown unit system")
  end.

Definition fx_convert (v : number * string * string) (target : string)
    : result number :=
  let '(x, unit, _) := v in
  if String.eqb unit target then Ok x
  else if String.eqb unit "inHg" && String.eqb target "mbar"
  then py_mul x (PyFloat 33.86)
  else Raise (KeyError unit).

Record table : Type := mkTable {
  last_good : Z;
  rows : gmap Z (gmap string pyobj)
}.

Definition fx_extractRecordFrom (a : table) (ts : Z)
    : result (gmap string pyobj) :=
  match rows a !! ts with
  | Some r => Ok r
  | None => Raise (OtherError "no such record")
  end.

#[export] Instance collaborators : Collaborators := {
  gmtime_strftime := fx_gmtime_strftime;
  latlon_string := fx_latlon_string;
  getStandardUnitType := fx_getStandardUnitType;
  convert := fx_convert;
  archive := table;
  lastGoodStamp := last_good;
  extractRecordFrom := fx_extractRecordFrom
}.

(** 2024-03-15T12:34:00Z *)
Definition t0 : Z := 1710506040.

Definition a_record : gmap string pyobj :=
  list_to_map
    [ ("dateTime", Some (PyInt t0)); ("usUnits", Some (PyInt weewx.US));
      ("windDir", Some (PyFloat 180)); ("windSpeed", Some (PyFloat 5));
      ("windGust", Some (PyFloat 9)); ("outTemp", Some (PyFloat 72));
      ("rain", Some (PyFloat 0.05)); ("rain24", Some (PyFloat 0.30));
      ("dailyrain", Some (PyFloat 1.20));
      ("barometer", Some (PyFloat 29.92));
      ("outHumidity", Some (PyFloat 55));
      ("radiation", Some (PyFloat 450)) ].

Definition a_config : APRSConfig :=
  mkAPRSConfig "N0CALL-13" 48.117 (-122.5) "VantagePro" "/dev/ttyS0"
    9600 8 "N" 1 "APRS VIA WIDE2-2" "weewx" true 300 1800 3.

Definition an_archive : table := mkTable t0 {[ t0 := a_record ]}.

Definition a_machine (lastpost : option Z) : Machine :=
  mkMachine (mkAPRS "aprs" a_config lastpost) [] 0.

(** A device that never fails, and one whose [k]-th call fails. *)
Definition sound : Device := fun _ => None.
Definition broken_at (k : nat) : Device :=
  fun i => if (i =? k)%nat then Some (SerialException "write failed") else None.

(** [time.time()] one minute after [t0]. *)
Definition a_now : float := 1710506100.5.

(** The example record stamped [ts], with the unit system [us], and the
    archive whose only and latest record it is. *)
Definition record_at (ts us : Z) : gmap string pyobj :=
  <["dateTime" := Some (PyInt ts)]>
    (<["usUnits" := Some (PyInt us)]> a_record).

Definition archive_at (ts us : Z) : table :=
  mkTable ts {[ ts := record_at ts us ]}.

Definition set_enabled (b : bool) (c : APRSConfig) : APRSConfig :=
  mkAPRSConfig (station c) (latitude c) (longitude c) (hardware c) (port c)
    (baudrate c) (databits c) (parity c) (stopbits c) (unproto c)
    (status_message c) b (interval c) (stale c) (max_tries c).

End Fixture.

(* ================================================================== *)
(** ** The spec's side: what the claims are compared with *)
(* ================================================================== *)

(** The spec's "zero-padded 3 digits": hundreds, tens, units. *)
Definition three_digits (n : Z) : string :=
  String (digit_char (n / 100))
    (String (digit_char (n / 10 mod 10))
       (String (digit_char (n mod 10)) EmptyString)).

(** The spec's "zero-padded 2 digits": tens, units. *)
Definition two_digits (n : Z) : string :=
  String (digit_char (n / 10)) (String (digit_char (n mod 10)) EmptyString).

(** A record value that is the integer [z], stored as an [int] or as the
    float [f] of the same value. *)
Definition is_value (z : Z) (f : float) (o : pyobj) : Prop :=
  o = Some (PyInt z) \/ o = Some (PyFloat f).

(** The record of the spec's encoder example: every field present, with
    the values given there. *)
Definition known_record (r : record) : Prop :=
  (exists dt, r !! "dateTime" = Some dt /\ is_value 1710506040 1710506040 dt) /\
  is_value 180 180 (dict_get r "windDir") /\
  is_value 5 5 (dict_get r "windSpeed") /\
  is_value 9 9 (dict_get r "windGust") /\
  is_value 72 72 (dict_get r "outTemp") /\
  dict_get r "rain" = Some (PyFloat 0.05) /\
  dict_get r "rain24" = Some (PyFloat 0.30) /\
  dict_get r "dailyrain" = Some (PyFloat 1.20) /\
  (exists b, dict_get r "barometer" = Some b) /\
  is_value 55 55 (dict_get r "outHumidity") /\
  is_value 450 450 (dict_get r "radiation").

(** "Case-insensitive": equal once both are upper-cased. *)
Definition same_ignoring_case (a b : string) : Prop := upper a = upper b.

(** The spec's parity constraint: one of N, E, O, M, S in either case. *)
Definition parity_accepted (p : string) : Prop :=
  exists v, v ∈ ["N"; "E"; "O"; "M"; "S"] /\ same_ignoring_case p v.

(** The spec's range constraint on an angle: a finite number between the
    two bounds, as exact fractions. *)
Definition in_range (lo : Z) (x : float) (hi : Z) : Prop :=
  exists n d, float_value x = Finite n d /\ lo * d <= n <= hi * d.

(** The spec's list of inputs that construction rejects. *)
Definition violates (c : APRSConfig) : Prop :=
  ~ parity_accepted (parity c) \/
  ~ in_range (-90) (latitude c) 90 \/
  ~ in_range (-180) (longitude c) 180 \/
  interval c < 0 \/ stale c < 0 \/ max_tries c < 1.

(** The invariant of a settings object. *)
Definition valid_settings (c : APRSConfig) : Prop :=
  parity c ∈ SerialConfig.VALID_PARITIES /\
  in_range (-90) (latitude c) 90 /\
  in_range (-180) (longitude c) 180 /\
  0 <= interval c /\ 0 <= stale c /\ 1 <= max_tries c.

(** The gate as the spec words it, rule by rule: the interval rule
    applies whenever a last post "is set". *)
Definition gate_as_specified (enabled : bool) (candidate latest : Z)
    (now : float) (stale interval : Z) (last_post : option Z)
    : result APRSStatus :=
  if negb enabled then Ok DISABLED
  else if negb (candidate =? latest) then Ok NON_LATEST
  else
    how_old ← py_sub (PyFloat now) (PyInt candidate);
    if py_gt how_old (PyInt stale) then Ok STALE
    else
      match last_post with
      | Some last =>
          if candidate - last <? interval then Ok INTERVAL_WAIT
          else Ok SUCCESS
      | None => Ok SUCCESS
      end.

(** The events of a list of commands: each one written, then its delay
    slept when there is one. *)
Definition events_of (cmds : list (string * Z)) : list event :=
  flat_map (fun '(cmd, delay) =>
              EvWrite cmd :: (if delay =? 0 then [] else [EvSleep delay]))
           cmds.

(** The spec's script: seven sends, one second after each but the last. *)
Definition tnc_script (c : APRSConfig) (packet : string) : list event :=
  [ EvWrite ctrl_C; EvSleep 1;
    EvWrite ("mycall " +:+ station c +:+ CR); EvSleep 1;
    EvWrite ("unproto " +:+ unproto c +:+ CR); EvSleep 1;
    EvWrite ("conv" +:+ CR); EvSleep 1;
    EvWrite (packet +:+ CR); EvSleep 1;
    EvWrite (">" +:+ status_message c +:+ CR); EvSleep 1;
    EvWrite ctrl_C ].

(** Opening the port and flushing its two buffers. *)
Definition opening (c : APRSConfig) : list event :=
  [ EvOpen (port c) (baudrate c) (databits c) (parity c) (stopbits c);
    EvFlushOutput; EvFlushInput ].

Definition is_write (ev : event) : bool :=
  match ev with EvWrite _ => true | _ => false end.

Definition is_lastpost (ev : event) : bool :=
  match ev with EvLastpost _ => true | _ => false end.

Section PostDataParts.
Context {collab : Collaborators}.

(** The part of [postData] before the serial port is touched: the gate,
    the record, the unit check and the encoder.  It has no effect. *)
Definition packet_for (self : APRS) (arch : archive) (now : float)
    (time_ts : Z) : result string :=
  status ← _check_post_conditions self arch now time_ts;
  if negb (bool_decide (status = SUCCESS))
  then raise_str "APRS: {status.value}"
  else
    r ← extractRecordFrom arch time_ts;
    us ← dict_item r "usUnits";
    if pyobj_ne us (Some (PyInt weewx.US))
    then raise_str "APRS: Units must be US Customary."
    else format_weather_data (config self) r.

(** The [try] block of [postData]. *)
Definition transmission (self : APRS) (dev : Device) (packet : string)
    : io unit :=
  try_except
    (with_Serial dev (config self)
       (_ ← serial_call dev EvFlushOutput;
        _ ← serial_call dev EvFlushInput;
        _send_tnc_commands self dev packet))
    (fun e =>
       if is_SerialException e
       then io_raise (APRSError ("Serial communication error: " +:+ exn_str e))
       else io_raise (APRSError ("Unexpected error during APRS upload: " +:+ exn_str e))).
End PostDataParts.

(** The body of the loop of [_send_tnc_commands]. *)
Definition send (ser : Device) (command : string * Z) : io unit :=
  let '(cmd, delay) := command in
  _ ← serial_call ser (EvWrite cmd);
  if delay =? 0 then mret tt else sleep delay.

(** The machine after [evs] more events and [n] more calls on the port. *)
Definition advance (m : Machine) (evs : list event) (n : nat) : Machine :=
  mkMachine (aprs m) (trace m ++ evs) (calls m + n).

(** [dev] raises nothing in its next [n] calls. *)
Definition sound_for (dev : Device) (m : Machine) (n : nat) : Prop :=
  forall k, (k < n)%nat -> dev (calls m + k)%nat = None.

(** The first call of [dev] to raise from now on is the [k]-th, with [e]. *)
Definition first_fault (dev : Device) (m : Machine) (k : nat) (e : exn)
    : Prop :=
  dev (calls m + k)%nat = Some e /\ sound_for dev m k.

(** How an exception met on the serial port reaches the caller: the
    handler of [postData] wraps it, and one met while writing a command
    goes through the handler of [_send_tnc_commands] first. *)
Definition wrap_outer (e : exn) : exn :=
  APRSError (if is_SerialException e
             then "Serial communication error: " +:+ exn_str e
             else "Unexpected error during APRS upload: " +:+ exn_str e).

Definition wrap_inner (e : exn) : exn :=
  if is_SerialException e
  then APRSError ("Failed to send TNC commands: " +:+ exn_str e)
  else e.

Definition surfaced (k : nat) (e : exn) : exn :=
  if (k <? 3)%nat then wrap_outer e else wrap_outer (wrap_inner e).

(** The events of an attempt whose [k]-th call on the port raises: what
    was done before that call, and the close of the port once it was
    open. *)
Definition events_until_fault (c : APRSConfig) (packet : string) (k : nat)
    : list event :=
  match k with
  | O => []
  | _ => take k (opening c) ++ events_of (take (k - 3) (commands c packet))
         ++ [EvClose]
  end.

(** The seven sends of the script, without the waits. *)
Definition seven_writes (c : APRSConfig) (packet : string) : list event :=
  [ EvWrite ctrl_C;
    EvWrite ("mycall " +:+ station c +:+ CR);
    EvWrite ("unproto " +:+ unproto c +:+ CR);
    EvWrite ("conv" +:+ CR);
    EvWrite (packet +:+ CR);
    EvWrite (">" +:+ status_message c +:+ CR);
    EvWrite ctrl_C ].

(* ================================================================== *)
(** ** Reading a packet back, and what a run of the uploader did *)
(* ================================================================== *)

(** A decimal digit read back. *)
Definition digit_value (c : ascii) : option Z :=
  let n := nat_of_ascii c in
  if ((48 <=? n) && (n <=? 57))%nat then Some (Z.of_nat (n - 48)) else None.

(** A non-empty string of decimal digits read as a number. *)
Fixpoint parse_digits (s : string) (acc : Z) : option Z :=
  match s with
  | EmptyString => Some acc
  | String c s' =>
      match digit_value c with
      | Some d => parse_digits s' (10 * acc + d)
      | None => None
      end
  end.

(** One slot of a block read back: the dots are "no data", digits are a
    number, anything else is not a slot. *)
Definition decode_slot (s : string) : option (option Z) :=
  if String.eqb s "..." then Some None
  else
    match s with
    | EmptyString => None
    | _ => option_map Some (parse_digits s 0)
    end.

(** The wind and temperature block read back as the receiver does: 16
    characters, the four letters at their places, a slot of three between
    them. *)
Definition decode_wind_temp (s : string) : option (list (option Z)) :=
  if (String.length s =? 16)%nat
     && String.eqb (substring 0 1 s) "_" && String.eqb (substring 4 1 s) "/"
     && String.eqb (substring 8 1 s) "g" && String.eqb (substring 12 1 s) "t"
  then
    dir ← decode_slot (substring 1 3 s);
    speed ← decode_slot (substring 5 3 s);
    gust ← decode_slot (substring 9 3 s);
    temp ← decode_slot (substring 13 3 s);
    Some [dir; speed; gust; temp]
  else None.

(** The integer a field of a record is written as: none when the field is
    absent. *)
Definition field_int (r : record) (field : string) : result (option Z) :=
  match dict_get r field with
  | None => Ok None
  | Some val => n ← py_int val; Ok (Some n)
  end.

(** A number that is neither NaN nor an infinity. *)
Definition finite (v : number) : Prop :=
  exists num den, value_of v = Finite num den.

(** An integer that fits a field of three characters, sign included. *)
Definition fits3 (o : option Z) : Prop :=
  match o with
  | Some n => -99 <= n <= 999
  | None => True
  end.

Definition is_open (ev : event) : bool :=
  match ev with EvOpen _ _ _ _ _ => true | _ => false end.

Definition is_close (ev : event) : bool :=
  match ev with EvClose => true | _ => false end.

(** The seconds slept in a list of events. *)
Definition slept (evs : list event) : Z :=
  foldr (fun ev acc => match ev with EvSleep s => s + acc | _ => acc end) 0 evs.

(** The events of a run are those of one session on the port: nothing, or
    an open, then only flushes, writes and sleeps, then a close, and
    possibly the assignment to [_lastpost] after it. *)
Definition inside_session (ev : event) : bool :=
  match ev with
  | EvFlushOutput | EvFlushInput | EvWrite _ | EvSleep _ => true
  | _ => false
  end.

Definition one_session (evs : list event) : Prop :=
  evs = [] \/
  exists o body tail,
    evs = (o :: body ++ EvClose :: tail)%list /\
    is_open o = true /\
    forallb inside_session body = true /\
    (tail = [] \/ exists ts, tail = [EvLastpost ts]).

(** What the loop of [_format_wind_temp] appends for one field. *)
Definition slot3 (r : record) (field : string) : result string :=
  match dict_get r field with
  | Some val => n ← py_int val; Ok (format_0d 3 n)
  | None => Ok "..."
  end.

(** How a slot shows an integer, or the absence of one. *)
Definition show3 (o : option Z) : string :=
  match o with
  | Some n => format_0d 3 n
  | None => "..."
  end.

Definition wind_temp_fields : list string :=
  ["windDir"; "windSpeed"; "windGust"; "outTemp"].

(** An integer that a slot of three digits holds without a sign. *)
Definition three_digit (o : option Z) : Prop :=
  match o with
  | Some n => 0 <= n < 1000
  | None => True
  end.

(** The integer a rain field is written as: hundredths, cut towards
    zero; none when the field is absent. *)
Definition field_hundredths (r : record) (field : string)
    : result (option Z) :=
  match dict_get r field with
  | None => Ok None
  | Some val => scaled ← py_mul val (PyInt 100); n ← py_int scaled; Ok (Some n)
  end.

Definition rain_fields : list string := ["rain"; "rain24"; "dailyrain"].

(** The ten fields of a record that carry weather data. *)
Definition weather_fields : list string :=
  (wind_temp_fields ++ rain_fields
   ++ ["barometer"; "outHumidity"; "radiation"])%list.

(* ================================================================== *)
(** ** Facts about the Python layer *)
(* ================================================================== *)

Lemma float_value_den_pos (f : float) (num den : Z) :
  float_value f = Finite num den -> 0 < den.
Proof.
  unfold float_value.
  destruct (Prim2SF f) as [s | s | | s m e]; try discriminate.
  - intros [= _ <-]. lia.
  - destruct s; discriminate.
  - destruct (0 <=? e) eqn:He; intros [= _ <-]; [lia |].
    apply Z.leb_gt in He. apply Z.pow_pos_nonneg; lia.
Qed.

Lemma value_of_den_pos (v : number) (num den : Z) :
  value_of v = Finite num den -> 0 < den.
Proof.
  destruct v as [z | f]; cbn.
  - intros [= _ <-]. lia.
  - apply float_value_den_pos.
Qed.

(** [int] of a float is its integer part: no further from zero than the
    float, less than one away from it, and of the same sign. *)
Lemma float_trunc_toward_zero (f : float) (z : Z) :
  float_trunc f = Ok z ->
  exists num den,
    float_value f = Finite num den /\ 0 < den /\
    Z.abs z * den <= Z.abs num < (Z.abs z + 1) * den /\
    0 <= z * num.
Proof.
  unfold float_trunc.
  destruct (float_value f) as [| | num den |] eqn:Hx; try discriminate.
  intros [= <-]. exists num, den.
  pose proof (float_value_den_pos _ _ _ Hx) as Hden.
  split; [reflexivity | split; [assumption |]].
  assert (Habs : Z.abs (num ÷ den) = Z.abs num / den).
  { rewrite <- Z.quot_abs by lia.
    rewrite (Z.abs_eq den) by lia.
    apply Z.quot_div_nonneg; lia. }
  rewrite Habs. split; [split |].
  - rewrite Z.mul_comm. apply Z.mul_div_le. lia.
  - rewrite Z.mul_comm. apply Z.mul_succ_div_gt. lia.
  - destruct (Z.le_ge_cases 0 num) as [Hn | Hn].
    + apply Z.mul_nonneg_nonneg; [apply Z.quot_pos; lia | lia].
    + apply Z.mul_nonpos_nonpos; [| lia].
      rewrite <- (Z.opp_involutive num), Z.quot_opp_l by lia.
      assert (0 <= - num ÷ den) by (apply Z.quot_pos; lia). lia.
Qed.

(** Checking a decidable property on an initial segment of the naturals
    settles it for the integers of that range. *)
Lemma Z_range_forall (p : Z -> bool) (bound : nat) :
  forallb (fun k => p (Z.of_nat k)) (seq 0 bound) = true ->
  forall n, 0 <= n < Z.of_nat bound -> p n = true.
Proof.
  intros Hall n Hn.
  rewrite forallb_forall in Hall.
  rewrite <- (Z2Nat.id n) by lia.
  apply Hall, in_seq. lia.
Qed.

Lemma format_03d_three_digits (n : Z) :
  0 <= n < 1000 -> format_0d 3 n = three_digits n.
Proof.
  intros Hn. apply String.eqb_eq.
  apply (Z_range_forall
           (fun k => String.eqb (format_0d 3 k) (three_digits k)) 1000);
    [vm_compute; reflexivity | exact Hn].
Qed.

Lemma format_02d_two_digits (n : Z) :
  0 <= n < 100 -> format_0d 2 n = two_digits n.
Proof.
  intros Hn. apply String.eqb_eq.
  apply (Z_range_forall
           (fun k => String.eqb (format_0d 2 k) (two_digits k)) 100);
    [vm_compute; reflexivity | exact Hn].
Qed.

Lemma append_assoc (a b c : string) : (a +:+ b) +:+ c = a +:+ (b +:+ c).
Proof.
  induction a as [| x a IH]; [reflexivity |].
  change (String x ((a +:+ b) +:+ c) = String x (a +:+ (b +:+ c))).
  f_equal. exact IH.
Qed.

(* ================================================================== *)
(** ** The encoder on the spec's example record *)
(* ================================================================== *)

Lemma known_wind_temp (r : record) :
  known_record r -> _format_wind_temp r = Ok "_180/005g009t072".
Proof.
  intros (_ & Hwd & Hws & Hwg & Hot & _).
  unfold _format_wind_temp; cbn [mapM].
  destruct Hwd as [-> | ->], Hws as [-> | ->], Hwg as [-> | ->],
    Hot as [-> | ->]; vm_compute; reflexivity.
Qed.

Lemma known_rain (r : record) :
  known_record r -> _format_rain r = Ok "r005p030P120".
Proof.
  intros (_ & _ & _ & _ & _ & Hr & Hr24 & Hd & _).
  unfold _format_rain; cbn [mapM].
  rewrite Hr, Hr24, Hd. vm_compute; reflexivity.
Qed.

Lemma known_humidity (r : record) :
  known_record r -> _format_humidity r = Ok "h55".
Proof.
  intros (_ & _ & _ & _ & _ & _ & _ & _ & _ & Hh & _).
  unfold _format_humidity.
  destruct Hh as [-> | ->]; vm_compute; reflexivity.
Qed.

Lemma known_radiation (r : record) :
  known_record r -> _format_radiation r = Ok "L450".
Proof.
  intros (_ & _ & _ & _ & _ & _ & _ & _ & _ & _ & Hrad).
  unfold _format_radiation.
  destruct Hrad as [-> | ->]; vm_compute; reflexivity.
Qed.

Section EncoderExample.
Context {collab : Collaborators}.

(** C1.  On every record that holds the values of the spec's example
    (wind 180 at 5 gusting 9, 72 degrees, rain 0.05 / 0.30 / 1.20,
    humidity 55, radiation 450, time stamp 2024-03-15T12:34:00Z) the
    encoder returns the time stamp block, the two position blocks,
    [_180/005g009t072], [r005p030P120], the barometer block, [h55],
    [L450] and the hardware suffix, in this order and with nothing in
    between; the digits come from [int], which cuts a float towards
    zero. *)
Theorem C1_encoder_example
    (config : APRSConfig) (r : record) (dt : pyobj)
    (time_str lat_str lon_str baro : string) :
  known_record r ->
  r !! "dateTime" = Some dt ->
  gmtime_strftime "@%d%H%Mz" dt = Ok time_str ->
  latlon_string (latitude config) ("N", "S") "lat" = Ok lat_str ->
  latlon_string (longitude config) ("E", "W") "lon" = Ok lon_str ->
  _format_barometer r = Ok baro ->
  _format_wind_temp r = Ok "_180/005g009t072" /\
  _format_rain r = Ok "r005p030P120" /\
  _format_humidity r = Ok "h55" /\
  _format_radiation r = Ok "L450" /\
  format_weather_data config r =
    Ok (time_str +:+ lat_str +:+ lon_str +:+ "_180/005g009t072" +:+
        "r005p030P120" +:+ baro +:+ "h55" +:+ "L450" +:+
        hardware_str config) /\
  (forall f z, py_int (PyFloat f) = Ok z ->
     exists num den,
       float_value f = Finite num den /\ 0 < den /\
       Z.abs z * den <= Z.abs num < (Z.abs z + 1) * den /\
       0 <= z * num).
Proof.
  intros Hr Hdt Htime Hlat Hlon Hbaro.
  pose proof (known_wind_temp r Hr) as Hw.
  pose proof (known_rain r Hr) as Hrain.
  pose proof (known_humidity r Hr) as Hh.
  pose proof (known_radiation r Hr) as Hrad.
  repeat split; try assumption.
  - unfold format_weather_data, dict_item.
    rewrite Hdt, Hlat, Hlon, Hw, Hrain, Hbaro, Hh, Hrad.
    cbn. rewrite Htime. cbn.
    rewrite !append_assoc. reflexivity.
  - intros f z Hz. apply float_trunc_toward_zero. exact Hz.
Qed.
End EncoderExample.

(** The example record of the fixture is such a record, and its packet is
    computed in full. *)
Lemma C1_encoder_example_witness :
  known_record Fixture.a_record /\
  format_weather_data (collab := Fixture.collaborators)
      Fixture.a_config Fixture.a_record =
    Ok "@151234z4807.02N12230.00W_180/005g009t072r005p030P120b10130h55L450.DsVP".
Proof.
  assert (Hk : known_record Fixture.a_record).
  { unfold known_record, is_value.
    split; [exists (Some (PyInt Fixture.t0)); split; [reflexivity | left; reflexivity] |].
    repeat split;
      try (right; vm_compute; reflexivity);
      try (vm_compute; reflexivity).
    exists (PyFloat 29.92). vm_compute; reflexivity. }
  split; [exact Hk |].
  refine (proj1 (proj2 (proj2 (proj2 (proj2
            (C1_encoder_example (collab := Fixture.collaborators) Fixture.a_config Fixture.a_record
               (Some (PyInt Fixture.t0)) "@151234z" "4807.02N" "12230.00W"
               "b10130" Hk _ _ _ _ _)))))); vm_compute; reflexivity.
Defined.

(* ================================================================== *)
(** ** Order facts on Python numbers *)
(* ================================================================== *)

Lemma Zcompare_scale (a b D : Z) : 0 < D -> (a * D ?= b * D) = (a ?= b).
Proof.
  intros HD.
  destruct (Z.compare_spec (a * D) (b * D)), (Z.compare_spec a b);
    try reflexivity; nia.
Qed.

(** A float constant that is a whole number compares like that integer. *)
Lemma py_compare_whole (v : number) (f : float) (k D : Z) :
  float_value f = Finite (k * D) D -> 0 < D ->
  py_compare v (PyFloat f) = py_compare v (PyInt k).
Proof.
  intros Hf HD. unfold py_compare; cbn [value_of]. rewrite Hf.
  destruct (value_of v) as [| | n d |]; cbn; try reflexivity.
  f_equal. rewrite Z.mul_1_r.
  replace (k * D * d) with (k * d * D) by ring.
  apply Zcompare_scale. exact HD.
Qed.

Lemma py_lt_100 (v : number) : py_lt v (PyFloat 100) = py_lt v (PyInt 100).
Proof.
  unfold py_lt.
  rewrite (py_compare_whole v 100 100 (2 ^ 46)); [reflexivity | | lia].
  vm_compute; reflexivity.
Qed.

Lemma py_lt_1000 (v : number) : py_lt v (PyFloat 1000) = py_lt v (PyInt 1000).
Proof.
  unfold py_lt.
  rewrite (py_compare_whole v 1000 1000 (2 ^ 43)); [reflexivity | | lia].
  vm_compute; reflexivity.
Qed.

Lemma py_lt_2000 (v : number) : py_lt v (PyFloat 2000) = py_lt v (PyInt 2000).
Proof.
  unfold py_lt.
  rewrite (py_compare_whole v 2000 2000 (2 ^ 42)); [reflexivity | | lia].
  vm_compute; reflexivity.
Qed.

(** What the comparisons with an integer say about the exact value. *)
Lemma py_lt_int_inv (v : number) (k : Z) :
  py_lt v (PyInt k) = true ->
  value_of v = NegInf \/
  exists n d, value_of v = Finite n d /\ 0 < d /\ n < k * d.
Proof.
  unfold py_lt, py_compare; cbn [value_of].
  destruct (value_of v) as [| | n d |] eqn:Hv; cbn; try discriminate.
  - intros _. left; reflexivity.
  - destruct (n * 1 ?= k * d) eqn:Hc; try discriminate. intros _.
    right. exists n, d. rewrite Z.compare_lt_iff in Hc.
    pose proof (value_of_den_pos _ _ _ Hv). repeat split; [assumption | lia].
Qed.

Lemma py_le_int_inv (k : Z) (v : number) :
  py_le (PyInt k) v = true ->
  value_of v = PosInf \/
  exists n d, value_of v = Finite n d /\ 0 < d /\ k * d <= n.
Proof.
  unfold py_le, py_compare; cbn [value_of].
  destruct (value_of v) as [| | n d |] eqn:Hv; cbn; try discriminate.
  - pose proof (value_of_den_pos _ _ _ Hv) as Hd.
    destruct (k * d ?= n * 1) eqn:Hc; try discriminate; intros _; right;
      exists n, d; repeat split; try assumption.
    + rewrite Z.compare_eq_iff in Hc. lia.
    + rewrite Z.compare_lt_iff in Hc. lia.
  - intros _. left; reflexivity.
Qed.

(** [k <= v] excludes [v < k'] for every [k' <= k]. *)
Lemma py_le_not_lt (k k' : Z) (v : number) :
  k' <= k -> py_le (PyInt k) v = true -> py_lt v (PyInt k') = false.
Proof.
  intros Hk Hle.
  destruct (py_lt v (PyInt k')) eqn:Hlt; [| reflexivity].
  apply py_le_int_inv in Hle. apply py_lt_int_inv in Hlt.
  destruct Hle as [Hle | (n & d & Hv & Hd & Hle)],
           Hlt as [Hlt | (n' & d' & Hv' & Hd' & Hlt)];
    try congruence.
  rewrite Hv in Hv'. injection Hv' as <- <-. nia.
Qed.

(** A value in [[lo, hi)] with [0 <= lo] has an integer part, and it lies
    in the same range. *)
Lemma py_int_range (v : number) (lo hi : Z) :
  0 <= lo -> py_le (PyInt lo) v = true -> py_lt v (PyInt hi) = true ->
  exists n, py_int v = Ok n /\ lo <= n < hi.
Proof.
  intros Hlo Hle Hlt.
  apply py_le_int_inv in Hle. apply py_lt_int_inv in Hlt.
  destruct Hle as [Hle | (n & d & Hv & Hd & Hle)],
           Hlt as [Hlt | (n' & d' & Hv' & Hd' & Hlt)];
    try congruence.
  rewrite Hv in Hv'. injection Hv' as <- <-.
  assert (Hq : n ÷ d = n / d) by (apply Z.quot_div_nonneg; nia).
  assert (Hr : lo <= n / d < hi).
  { split.
    - apply Z.div_le_lower_bound; lia.
    - apply Z.div_lt_upper_bound; lia. }
  destruct v as [z | f]; cbn in Hv |- *.
  - injection Hv as <- <-. exists z. split; [reflexivity | lia].
  - exists (n / d). unfold float_trunc. rewrite Hv, Hq.
    split; [reflexivity | exact Hr].
Qed.

Lemma py_lt_ints (a b : Z) : py_lt (PyInt a) (PyInt b) = (a <? b).
Proof.
  unfold py_lt, py_compare, extended_compare, value_of, Z.ltb.
  rewrite !Z.mul_1_r. reflexivity.
Qed.

(* ================================================================== *)
(** ** The radiation and humidity blocks *)
(* ================================================================== *)

(** C7.  The radiation block of a record.  With [n] the integer part of
    the value: below 1000 it is [L] and [n] as [03d]; from 1000 up to but
    not 2000 it is [l] and the integer part of the value less 1000 as
    [03d]; from 2000 on, and when the field is absent, it is empty.  For a
    value in [[0, 1000)] the [03d] field is the three decimal digits of
    [n]; for an integer in [[1000, 2000)] it is the three digits of the
    value less 1000.  999, 1000, 1999 and 2000 give [L999], [l000], [l999]
    and nothing. *)
Theorem C7_radiation_block (r : record) :
  (forall v n,
     dict_get r "radiation" = Some v ->
     py_lt v (PyInt 1000) = true -> py_int v = Ok n ->
     _format_radiation r = Ok ("L" +:+ format_0d 3 n)) /\
  (forall v rest n,
     dict_get r "radiation" = Some v ->
     py_le (PyInt 1000) v = true -> py_lt v (PyInt 2000) = true ->
     py_sub v (PyInt 1000) = Ok rest -> py_int rest = Ok n ->
     _format_radiation r = Ok ("l" +:+ format_0d 3 n)) /\
  (forall v,
     dict_get r "radiation" = Some v -> py_le (PyInt 2000) v = true ->
     _format_radiation r = Ok "") /\
  (dict_get r "radiation" = None -> _format_radiation r = Ok "") /\
  (forall v,
     dict_get r "radiation" = Some v ->
     py_le (PyInt 0) v = true -> py_lt v (PyInt 1000) = true ->
     exists n, py_int v = Ok n /\ 0 <= n < 1000 /\
       _format_radiation r = Ok ("L" +:+ three_digits n)) /\
  (forall z,
     dict_get r "radiation" = Some (PyInt z) -> 1000 <= z < 2000 ->
     _format_radiation r = Ok ("l" +:+ three_digits (z - 1000))) /\
  (forall v, dict_get r "radiation" = Some v ->
     (is_value 999 999 (Some v) -> _format_radiation r = Ok "L999") /\
     (is_value 1000 1000 (Some v) -> _format_radiation r = Ok "l000") /\
     (is_value 1999 1999 (Some v) -> _format_radiation r = Ok "l999") /\
     (is_value 2000 2000 (Some v) -> _format_radiation r = Ok "")).
Proof.
  unfold _format_radiation.
  split; [| split; [| split; [| split; [| split; [| split]]]]].
  - intros v n -> Hlt Hn.
    rewrite py_lt_1000, Hlt. cbn. rewrite Hn. reflexivity.
  - intros v rest n -> Hle Hlt Hsub Hn.
    rewrite py_lt_1000, (py_le_not_lt 1000 1000 v), py_lt_2000, Hlt
      by (lia || assumption).
    cbn. rewrite Hsub. cbn. rewrite Hn. reflexivity.
  - intros v -> Hle.
    rewrite py_lt_1000, (py_le_not_lt 2000 1000 v) by (lia || assumption).
    rewrite py_lt_2000, (py_le_not_lt 2000 2000 v) by (lia || assumption).
    reflexivity.
  - intros ->. reflexivity.
  - intros v -> Hle Hlt.
    destruct (py_int_range v 0 1000 ltac:(lia) Hle Hlt) as (n & Hn & Hr).
    exists n. split; [exact Hn | split; [exact Hr |]].
    rewrite py_lt_1000, Hlt. cbn. rewrite Hn. cbn.
    rewrite format_03d_three_digits by exact Hr. reflexivity.
  - intros z -> Hz.
    assert (H1 : py_lt (PyInt z) (PyInt 1000) = false)
      by (rewrite py_lt_ints; lia).
    assert (H2 : py_lt (PyInt z) (PyInt 2000) = true)
      by (rewrite py_lt_ints; lia).
    rewrite py_lt_1000, H1, py_lt_2000, H2. cbn.
    rewrite format_03d_three_digits by lia. reflexivity.
  - intros v ->.
    repeat split; intros [[= ->] | [= ->]]; vm_compute; reflexivity.
Qed.

(** The fixture's record reports 450 W/m2; a reading of 1234.5 falls in
    the second range. *)
Lemma C7_radiation_block_witness :
  _format_radiation Fixture.a_record = Ok "L450" /\
  _format_radiation (<["radiation" := Some (PyFloat 1234.5)]> Fixture.a_record)
    = Ok "l234".
Proof.
  split.
  - apply (proj1 (C7_radiation_block Fixture.a_record) (PyFloat 450) 450);
      vm_compute; reflexivity.
  - apply (proj1 (proj2 (C7_radiation_block
             (<["radiation" := Some (PyFloat 1234.5)]> Fixture.a_record)))
             (PyFloat 1234.5) (PyFloat 234.5) 234);
      vm_compute; reflexivity.
Defined.

(** C8, as the code has it.  The humidity block is [h] and the integer
    part of the value as [02d] when the value is below 100, [h00] for
    every value that is not below 100 (100 itself and all above it), and
    [h..] when the field is absent.  For a value in [[0, 100)] the [02d]
    field is the two decimal digits of the integer part; 99 gives [h99]
    and 100 gives [h00]. *)
Theorem C8_humidity_block (r : record) :
  (forall v n,
     dict_get r "outHumidity" = Some v ->
     py_lt v (PyInt 100) = true -> py_int v = Ok n ->
     _format_humidity r = Ok ("h" +:+ format_0d 2 n)) /\
  (forall v,
     dict_get r "outHumidity" = Some v -> py_lt v (PyInt 100) = false ->
     _format_humidity r = Ok "h00") /\
  (forall v,
     dict_get r "outHumidity" = Some v -> py_le (PyInt 100) v = true ->
     _format_humidity r = Ok "h00") /\
  (dict_get r "outHumidity" = None -> _format_humidity r = Ok "h..") /\
  (forall v,
     dict_get r "outHumidity" = Some v ->
     py_le (PyInt 0) v = true -> py_lt v (PyInt 100) = true ->
     exists n, py_int v = Ok n /\ 0 <= n < 100 /\
       _format_humidity r = Ok ("h" +:+ two_digits n)) /\
  (forall v, dict_get r "outHumidity" = Some v ->
     (is_value 99 99 (Some v) -> _format_humidity r = Ok "h99") /\
     (is_value 100 100 (Some v) -> _format_humidity r = Ok "h00")).
Proof.
  unfold _format_humidity.
  split; [| split; [| split; [| split; [| split]]]].
  - intros v n -> Hlt Hn. rewrite py_lt_100, Hlt. cbn. rewrite Hn. reflexivity.
  - intros v -> Hlt. rewrite py_lt_100, Hlt. reflexivity.
  - intros v -> Hle.
    rewrite py_lt_100, (py_le_not_lt 100 100 v) by (lia || assumption).
    reflexivity.
  - intros ->. reflexivity.
  - intros v -> Hle Hlt.
    destruct (py_int_range v 0 100 ltac:(lia) Hle Hlt) as (n & Hn & Hr).
    exists n. split; [exact Hn | split; [exact Hr |]].
    rewrite py_lt_100, Hlt. cbn. rewrite Hn. cbn.
    rewrite format_02d_two_digits by exact Hr. reflexivity.
  - intros v ->.
    repeat split; intros [[= ->] | [= ->]]; vm_compute; reflexivity.
Qed.

Lemma C8_humidity_block_witness :
  _format_humidity Fixture.a_record = Ok "h55" /\
  _format_humidity (<["outHumidity" := Some (PyFloat 100)]> Fixture.a_record)
    = Ok "h00".
Proof.
  split.
  - apply (proj1 (C8_humidity_block Fixture.a_record) (PyFloat 55) 55);
      vm_compute; reflexivity.
  - apply (proj1 (proj2 (proj2 (C8_humidity_block
             (<["outHumidity" := Some (PyFloat 100)]> Fixture.a_record))))
             (PyFloat 100));
      vm_compute; reflexivity.
Defined.

(** C8 as the spec words it fails above 100: a humidity of 150 is present
    and is not 100, its integer part is 150, and the block is [h00], not
    [h] followed by that integer. *)
Lemma C8_humidity_above_100 :
  let r : record := {[ "outHumidity" := Some (PyFloat 150) ]} in
  dict_get r "outHumidity" = Some (PyFloat 150) /\
  py_eq (PyFloat 150) (PyInt 100) = false /\
  py_int (PyFloat 150) = Ok 150 /\
  _format_humidity r = Ok "h00" /\
  _format_humidity r <> Ok ("h" +:+ format_0d 2 150).
Proof.
  cbv zeta. repeat split; try (vm_compute; reflexivity).
  vm_compute. discriminate.
Qed.

(* ================================================================== *)
(** ** Settings construction *)
(* ================================================================== *)

Lemma between_in_range (lo : Z) (x : float) (hi : Z) :
  between lo x hi = true <-> in_range lo x hi.
Proof.
  unfold between, in_range, py_le, py_compare; cbn [value_of].
  destruct (float_value x) as [| | n d |] eqn:Hx; cbn.
  - split; [discriminate | intros (n & d & [=] & _)].
  - split; [discriminate | intros (n & d & [=] & _)].
  - pose proof (float_value_den_pos _ _ _ Hx) as Hd.
    rewrite !Z.mul_1_r.
    destruct (Z.compare_spec (lo * d) n) as [H1 | H1 | H1],
             (Z.compare_spec n (hi * d)) as [H2 | H2 | H2]; cbn;
      (split;
       [ intros Hb; first [discriminate Hb | exists n, d; split; [reflexivity | lia]]
       | intros (n' & d' & [= <- <-] & Hr); first [reflexivity | lia] ]).
  - split; [discriminate | intros (n & d & [=] & _)].
Qed.

Lemma parity_check (p : string) :
  bool_decide (upper p ∉ SerialConfig.VALID_PARITIES) = false <->
  parity_accepted p.
Proof.
  rewrite bool_decide_eq_false.
  unfold parity_accepted, same_ignoring_case, SerialConfig.VALID_PARITIES.
  split.
  - intros Hin. apply dec_stable in Hin.
    exists (upper p). set_unfold in Hin.
    destruct_or! Hin; rewrite Hin; (split; [set_solver | reflexivity]).
  - intros (v & Hv & Heq) Hnot. apply Hnot. rewrite Heq.
    set_unfold in Hv. destruct_or! Hv; subst v; cbn; set_solver.
Qed.

(** A constructor call that raises a [ValueError] on an input that
    violates a constraint settles all four parts of the statement. *)
Ltac rejected V :=
  let Hviol := fresh "Hviol" in
  assert (Hviol : V);
  [ unfold violates
  | split;
    [ split; [intros _; exact Hviol | intros _; eexists; reflexivity]
    | split;
      [ intros ? [= <-]; reflexivity
      | split; [intros Hv; exfalso; exact (Hv Hviol) | intros ? [=]] ] ] ].

(** C6.  The dataclass constructor raises exactly on the inputs the spec
    lists (a parity that is none of N, E, O, M, S in either case, a
    latitude outside [-90, 90], a longitude outside [-180, 180], a
    negative interval, a negative stale threshold, fewer than one try),
    and then with a [ValueError]; on every other input it returns the
    object, with the call sign and the parity upper-cased and nothing else
    changed; every object it returns meets all the constraints. *)
Theorem C6_settings_construction (c : APRSConfig) :
  ((exists e, __post_init__ c = Raise e) <-> violates c) /\
  (forall e, __post_init__ c = Raise e -> is_ValueError e = true) /\
  (~ violates c -> exists c', __post_init__ c = Ok c') /\
  (forall c', __post_init__ c = Ok c' ->
     c' = set_parity (upper (parity c)) (set_station (upper (station c)) c) /\
     station c' = upper (station c) /\
     valid_settings c').
Proof.
  pose proof (parity_check (parity c)) as Hp.
  pose proof (between_in_range (-90) (latitude c) 90) as Hlat.
  pose proof (between_in_range (-180) (longitude c) 180) as Hlon.
  unfold __post_init__, SerialConfig.validate_parity.
  cbn [parity station latitude longitude interval stale max_tries
       set_station set_parity].
  destruct (bool_decide (upper (parity c) ∉ SerialConfig.VALID_PARITIES))
    eqn:Hpar; cbn.
  { rejected (violates c).
    left. intros Ha. apply Hp in Ha. discriminate. }
  apply bool_decide_eq_false in Hpar. apply dec_stable in Hpar.
  assert (Hyes : parity_accepted (parity c)) by (apply Hp; reflexivity).
  destruct (between (-90) (latitude c) 90) eqn:Hb1; cbn.
  2:{ rejected (violates c).
      right; left. intros Ha. apply Hlat in Ha. discriminate. }
  destruct (between (-180) (longitude c) 180) eqn:Hb2; cbn.
  2:{ rejected (violates c).
      right; right; left. intros Ha. apply Hlon in Ha. discriminate. }
  assert (Hin1 : in_range (-90) (latitude c) 90) by (apply Hlat; reflexivity).
  assert (Hin2 : in_range (-180) (longitude c) 180) by (apply Hlon; reflexivity).
  destruct (Z.ltb_spec (interval c) 0) as [Hi | Hi]; cbn.
  { rejected (violates c). do 3 right; left. exact Hi. }
  destruct (Z.ltb_spec (stale c) 0) as [Hs | Hs]; cbn.
  { rejected (violates c). do 4 right; left. exact Hs. }
  destruct (Z.ltb_spec (max_tries c) 1) as [Hm | Hm]; cbn.
  { rejected (violates c). do 5 right. exact Hm. }
  split; [| split; [| split]].
  - split; [intros (e & [=]) |].
    intros [Hv | [Hv | [Hv | [Hv | [Hv | Hv]]]]]; first [contradiction | lia].
  - intros e [=].
  - intros _. eexists; reflexivity.
  - intros c' [= <-]. unfold valid_settings. cbn.
    split; [reflexivity | split; [reflexivity |]].
    split; [exact Hpar |]. split; [exact Hin1 |]. split; [exact Hin2 |]. lia.
Qed.

(** The fixture's settings, with the call sign and the parity in lower
    case, are accepted and come back upper-cased. *)
Lemma C6_settings_construction_witness :
  let raw := set_parity "n" (set_station "n0call-13" Fixture.a_config) in
  __post_init__ raw = Ok Fixture.a_config /\
  station Fixture.a_config = upper (station raw) /\
  valid_settings Fixture.a_config.
Proof.
  cbv zeta.
  assert (Hok : __post_init__
                  (set_parity "n" (set_station "n0call-13" Fixture.a_config))
                = Ok Fixture.a_config) by (vm_compute; reflexivity).
  split; [exact Hok |].
  exact (proj2 (proj2 (proj2 (proj2 (C6_settings_construction _))) _ Hok)).
Defined.

(* ================================================================== *)
(** ** The post gate *)
(* ================================================================== *)

Section Gate.
Context {collab : Collaborators}.

(** Where the last post is unset or is not zero, the code's gate is the
    gate of the spec. *)
Lemma gate_agrees (self : APRS) (arch : archive) (now : float) (time_ts : Z) :
  _lastpost self <> Some 0 ->
  _check_post_conditions self arch now time_ts =
  gate_as_specified (enabled (config self)) time_ts (lastGoodStamp arch)
    now (stale (config self)) (interval (config self)) (_lastpost self).
Proof.
  intros Hnz. unfold _check_post_conditions, gate_as_specified.
  assert (Hrule :
    truthy (_lastpost self)
    && (time_ts - default 0 (_lastpost self) <? interval (config self))
    = match _lastpost self with
      | Some last => time_ts - last <? interval (config self)
      | None => false
      end).
  { destruct (_lastpost self) as [last |]; cbn; [| reflexivity].
    destruct (Z.eqb_spec last 0) as [-> | _]; [congruence | reflexivity]. }
  rewrite Hrule.
  destruct (enabled (config self)); cbn [negb]; [| reflexivity].
  destruct (time_ts =? lastGoodStamp arch); cbn [negb]; [| reflexivity].
  destruct (py_sub (PyFloat now) (PyInt time_ts)) as [how_old | e];
    unfold mbind, result_bind, rbind; [| reflexivity].
  destruct (py_gt how_old (PyInt (stale (config self)))); [reflexivity |].
  destruct (_lastpost self) as [last |]; reflexivity.
Qed.

(** C10.  With the last post at epoch second zero, a candidate that
    passes the first three rules is eligible although less than the
    interval has passed since that post: the code tests the truth value
    of the time stamp, and zero is false.  The gate of the spec, which
    asks whether the time stamp is set, answers INTERVAL_WAIT there. *)
Theorem C10_epoch_zero_skips_interval
    (self : APRS) (arch : archive) (now : float) (time_ts : Z)
    (how_old : number) :
  _lastpost self = Some 0 ->
  enabled (config self) = true ->
  time_ts = lastGoodStamp arch ->
  py_sub (PyFloat now) (PyInt time_ts) = Ok how_old ->
  py_gt how_old (PyInt (stale (config self))) = false ->
  time_ts - 0 < interval (config self) ->
  _check_post_conditions self arch now time_ts = Ok SUCCESS /\
  gate_as_specified (enabled (config self)) time_ts (lastGoodStamp arch)
    now (stale (config self)) (interval (config self)) (_lastpost self)
  = Ok INTERVAL_WAIT.
Proof.
  intros Hlast Hen Hts Hold Hstale Hint.
  unfold _check_post_conditions, gate_as_specified.
  rewrite Hen, Hlast, <- Hts, Z.eqb_refl, Hold. cbn.
  rewrite Hstale. cbn.
  split; [reflexivity |].
  destruct (Z.ltb_spec (time_ts - 0) (interval (config self)));
    [reflexivity | lia].
Qed.
End Gate.

Lemma C10_epoch_zero_skips_interval_witness :
  _check_post_conditions (collab := Fixture.collaborators)
    (mkAPRS "aprs" Fixture.a_config (Some 0)) (Fixture.archive_at 120 1)
    130 120 = Ok SUCCESS.
Proof.
  refine (proj1 (C10_epoch_zero_skips_interval (collab := Fixture.collaborators)
            (mkAPRS "aprs" Fixture.a_config (Some 0))
            (Fixture.archive_at 120 1) 130 120 (PyFloat 10) _ _ _ _ _ _));
    first [reflexivity | vm_compute; reflexivity].
Defined.

(** C2 at the input where the code leaves the spec.  A record stamped with
    epoch second 0 is posted at clock 100 and the last post becomes 0;
    at clock 130 the next record, stamped 120, comes 120 seconds after
    that post with an interval of 300: the gate of the spec says
    INTERVAL_WAIT, the code says SUCCESS. *)
Theorem C2_gate_after_post_at_epoch_zero :
  let first_post :=
    postData (collab := Fixture.collaborators) (Fixture.archive_at 0 1)
      100 0 Fixture.sound (Fixture.a_machine None) in
  let self := aprs first_post.2 in
  first_post.1 = Ok tt /\
  _lastpost self = Some 0 /\
  interval (config self) = 300 /\
  _check_post_conditions (collab := Fixture.collaborators) self
    (Fixture.archive_at 120 1) 130 120 = Ok SUCCESS /\
  gate_as_specified (enabled (config self)) 120 120 130
    (stale (config self)) (interval (config self)) (_lastpost self)
  = Ok INTERVAL_WAIT.
Proof. vm_compute. repeat split; reflexivity. Qed.

(* ================================================================== *)
(** ** The TNC driver *)
(* ================================================================== *)

Lemma advance_advance (m : Machine) (e1 e2 : list event) (n1 n2 : nat) :
  advance (advance m e1 n1) e2 n2 = advance m (e1 ++ e2) (n1 + n2).
Proof.
  unfold advance; cbn. f_equal; [symmetry; apply app_assoc | lia].
Qed.

Lemma advance_nil (m : Machine) : advance m [] 0 = m.
Proof.
  destruct m as [a t c]. unfold advance; cbn.
  f_equal; [apply app_nil_r | lia].
Qed.

Lemma log_advance (m : Machine) (evs : list event) (n : nat) (ev : event) :
  log ev (advance m evs n) = advance m (evs ++ [ev]) n.
Proof. unfold log, advance; cbn. f_equal. symmetry. apply app_assoc. Qed.

Lemma serial_call_ok (dev : Device) (ev : event) (m : Machine) :
  dev (calls m) = None -> serial_call dev ev m = (Ok tt, advance m [ev] 1).
Proof.
  intros Hd. unfold serial_call, log, advance. rewrite Hd. cbn.
  do 2 f_equal. lia.
Qed.

Lemma serial_call_fault (dev : Device) (ev : event) (m : Machine) (e : exn) :
  dev (calls m) = Some e -> serial_call dev ev m = (Raise e, advance m [] 1).
Proof.
  intros Hd. unfold serial_call, advance. rewrite Hd.
  do 2 f_equal; [symmetry; apply app_nil_r | lia].
Qed.

Lemma sound_for_head (dev : Device) (m : Machine) (n : nat) :
  sound_for dev m (S n) -> dev (calls m) = None.
Proof. intros Hs. rewrite <- (Nat.add_0_r (calls m)). apply Hs. lia. Qed.

Lemma sound_for_tail (dev : Device) (m : Machine) (evs : list event) (n : nat) :
  sound_for dev m (S n) -> sound_for dev (advance m evs 1) n.
Proof.
  intros Hs k Hk. cbn. replace (calls m + 1 + k)%nat with (calls m + S k)%nat by lia.
  apply Hs. lia.
Qed.

Lemma first_fault_head (dev : Device) (m : Machine) (e : exn) :
  first_fault dev m 0 e -> dev (calls m) = Some e.
Proof. intros [Hd _]. rewrite Nat.add_0_r in Hd. exact Hd. Qed.

Lemma first_fault_tail (dev : Device) (m : Machine) (evs : list event)
    (k : nat) (e : exn) :
  first_fault dev m (S k) e ->
  dev (calls m) = None /\ first_fault dev (advance m evs 1) k e.
Proof.
  intros [Hd Hs]. split; [eapply sound_for_head; exact Hs |].
  split.
  - cbn. replace (calls m + 1 + k)%nat with (calls m + S k)%nat by lia. exact Hd.
  - apply sound_for_tail. intros j Hj. apply Hs. lia.
Qed.

(** Within any bound, a device either stays sound or has a first fault. *)
Lemma sound_or_first_fault (dev : Device) (m : Machine) (n : nat) :
  sound_for dev m n \/
  exists k e, (k < n)%nat /\ first_fault dev m k e.
Proof.
  induction n as [| n IH].
  - left. intros k Hk. lia.
  - destruct IH as [Hs | (k & e & Hk & Hf)].
    + destruct (dev (calls m + n)%nat) as [e |] eqn:Hd.
      * right. exists n, e. split; [lia | split; assumption].
      * left. intros k Hk.
        destruct (Nat.eq_dec k n) as [-> | Hne]; [exact Hd | apply Hs; lia].
    + right. exists k, e. split; [lia | exact Hf].
Qed.

(** The loop over the commands, on a device that stays sound: every
    command is written and slept on. *)
Lemma for_each_sound (dev : Device) (cmds : list (string * Z)) (m : Machine) :
  sound_for dev m (length cmds) ->
  for_each cmds (send dev) m = (Ok tt, advance m (events_of cmds) (length cmds)).
Proof.
  revert m. induction cmds as [| [cmd delay] cmds IH]; intros m Hs.
  - cbn. rewrite advance_nil. reflexivity.
  - cbn [for_each length]. unfold mbind, io_mbind, io_bind at 1.
    unfold send at 1. unfold mbind, io_mbind, io_bind at 1.
    rewrite (serial_call_ok dev _ m (sound_for_head _ _ _ Hs)).
    destruct (delay =? 0) eqn:Hz.
    + cbn [mret io_mret io_ret].
      rewrite (IH _ (sound_for_tail _ _ _ _ Hs)), advance_advance.
      cbn [events_of flat_map]. rewrite Hz. reflexivity.
    + unfold sleep at 1.
      rewrite log_advance.
      rewrite (IH _ (sound_for_tail _ _ _ _ Hs)), advance_advance.
      cbn [events_of flat_map]. rewrite Hz. reflexivity.
Qed.

(** The loop on a device whose [k]-th next call raises: the commands
    before the [k]-th are written and slept on, and the exception leaves
    the loop. *)
Lemma for_each_fault (dev : Device) (cmds : list (string * Z)) (m : Machine)
    (k : nat) (e : exn) :
  (k < length cmds)%nat -> first_fault dev m k e ->
  for_each cmds (send dev) m =
    (Raise e, advance m (events_of (take k cmds)) (S k)).
Proof.
  revert m k. induction cmds as [| [cmd delay] cmds IH]; intros m k Hk Hf.
  - cbn in Hk. lia.
  - cbn [for_each]. unfold mbind, io_mbind, io_bind at 1.
    unfold send at 1. unfold mbind, io_mbind, io_bind at 1.
    destruct k as [| k].
    + rewrite (serial_call_fault dev _ m e (first_fault_head _ _ _ Hf)).
      reflexivity.
    + cbn in Hk.
      destruct (first_fault_tail dev m
                  (EvWrite cmd :: (if delay =? 0 then [] else [EvSleep delay]))
                  k e Hf) as [Hd Hf'].
      rewrite (serial_call_ok dev _ m Hd).
      destruct (delay =? 0) eqn:Hz.
      * cbn [mret io_mret io_ret].
        rewrite (IH _ k ltac:(lia) Hf'), advance_advance.
        cbn [take events_of flat_map]. rewrite Hz. reflexivity.
      * unfold sleep at 1.
        rewrite log_advance. cbn [app].
        rewrite (IH _ k ltac:(lia) Hf'), advance_advance.
        cbn [take events_of flat_map]. rewrite Hz. reflexivity.
Qed.

(* ================================================================== *)
(** ** The transmission *)
(* ================================================================== *)

Lemma events_of_commands (c : APRSConfig) (packet : string) :
  events_of (commands c packet) = tnc_script c packet.
Proof. reflexivity. Qed.

Lemma sound_for_le (dev : Device) (m : Machine) (n n' : nat) :
  (n' <= n)%nat -> sound_for dev m n -> sound_for dev m n'.
Proof. intros Hle Hs k Hk. apply Hs. lia. Qed.

Lemma sound_for_shift (dev : Device) (m : Machine) (evs : list event)
    (a n : nat) :
  sound_for dev m (a + n) -> sound_for dev (advance m evs a) n.
Proof.
  intros Hs k Hk. cbn.
  replace (calls m + a + k)%nat with (calls m + (a + k))%nat by lia.
  apply Hs. lia.
Qed.

Lemma first_fault_shift (dev : Device) (m : Machine) (evs : list event)
    (a k : nat) (e : exn) :
  first_fault dev m (a + k) e -> first_fault dev (advance m evs a) k e.
Proof.
  intros [Hd Hs]. split.
  - cbn. replace (calls m + a + k)%nat with (calls m + (a + k))%nat by lia.
    exact Hd.
  - intros j Hj. cbn.
    replace (calls m + a + j)%nat with (calls m + (a + j))%nat by lia.
    apply Hs. lia.
Qed.

Lemma first_fault_sound (dev : Device) (m : Machine) (k : nat) (e : exn) :
  first_fault dev m k e -> sound_for dev m k.
Proof. intros [_ Hs]. exact Hs. Qed.

Section Transmission.
Context {collab : Collaborators}.
Variables (self : APRS) (dev : Device) (packet : string).

Lemma send_tnc_commands_sound (m : Machine) :
  sound_for dev m 7 ->
  _send_tnc_commands self dev packet m =
    (Ok tt, advance m (tnc_script (config self) packet) 7).
Proof.
  intros Hs. unfold _send_tnc_commands, try_except.
  change (for_each (commands (config self) packet) _)
    with (for_each (commands (config self) packet) (send dev)).
  rewrite (for_each_sound dev (commands (config self) packet) m Hs).
  reflexivity.
Qed.

Lemma send_tnc_commands_fault (m : Machine) (k : nat) (e : exn) :
  (k < 7)%nat -> first_fault dev m k e ->
  _send_tnc_commands self dev packet m =
    (Raise (wrap_inner e),
     advance m (events_of (take k (commands (config self) packet))) (S k)).
Proof.
  intros Hk Hf. unfold _send_tnc_commands, try_except.
  change (for_each (commands (config self) packet) _)
    with (for_each (commands (config self) packet) (send dev)).
  rewrite (for_each_fault dev (commands (config self) packet) m k e Hk Hf).
  unfold wrap_inner, io_raise. destruct (is_SerialException e); reflexivity.
Qed.

(** On a device that stays sound for ten calls the port is opened, both
    buffers are flushed, the script is played and the port is closed. *)
Lemma transmission_sound (m : Machine) :
  sound_for dev m 10 ->
  transmission self dev packet m =
    (Ok tt,
     advance m (opening (config self) ++ tnc_script (config self) packet
                ++ [EvClose]) 10).
Proof.
  intros Hs.
  unfold transmission, try_except, with_Serial.
  rewrite (serial_call_ok dev _ m (sound_for_head _ _ _ Hs)).
  unfold mbind, io_mbind, io_bind.
  rewrite (serial_call_ok dev EvFlushOutput (advance m _ 1)
             (sound_for_head _ _ 8 (sound_for_shift _ _ _ 1 9 Hs))).
  rewrite advance_advance.
  rewrite (serial_call_ok dev EvFlushInput (advance m _ (1 + 1))
             (sound_for_head _ _ 7 (sound_for_shift _ _ _ 2 8 Hs))).
  rewrite advance_advance.
  rewrite (send_tnc_commands_sound (advance m _ (1 + 1 + 1))
             (sound_for_shift _ _ _ 3 7 Hs)).
  rewrite advance_advance, log_advance. reflexivity.
Qed.

(** When the [k]-th of the ten calls raises, the attempt stops there,
    the port is closed if it was open, and the caller gets an
    [APRSError]. *)
Lemma transmission_fault (m : Machine) (k : nat) (e : exn) :
  (k < 10)%nat -> first_fault dev m k e ->
  transmission self dev packet m =
    (Raise (surfaced k e),
     advance m (events_until_fault (config self) packet k) (S k)).
Proof.
  intros Hk Hf.
  unfold transmission, try_except, with_Serial.
  destruct k as [| k].
  { rewrite (serial_call_fault dev _ m e (first_fault_head _ _ _ Hf)).
    unfold surfaced, wrap_outer, io_raise; cbn.
    destruct (is_SerialException e); reflexivity. }
  rewrite (serial_call_ok dev _ m
             (sound_for_head _ _ k (first_fault_sound _ _ _ _ Hf))).
  unfold mbind, io_mbind, io_bind.
  pose proof (first_fault_shift dev m
                [EvOpen (port (config self)) (baudrate (config self))
                   (databits (config self)) (parity (config self))
                   (stopbits (config self))] 1 k e Hf) as Hf1.
  destruct k as [| k].
  { rewrite (serial_call_fault dev _ _ e (first_fault_head _ _ _ Hf1)).
    rewrite advance_advance, log_advance.
    unfold surfaced, wrap_outer, io_raise; cbn.
    destruct (is_SerialException e); reflexivity. }
  rewrite (serial_call_ok dev _ _
             (sound_for_head _ _ k (first_fault_sound _ _ _ _ Hf1))).
  rewrite advance_advance.
  pose proof (first_fault_shift dev m
                ([EvOpen (port (config self)) (baudrate (config self))
                    (databits (config self)) (parity (config self))
                    (stopbits (config self))] ++ [EvFlushOutput])
                2 k e Hf) as Hf2.
  destruct k as [| k].
  { rewrite (serial_call_fault dev _ _ e (first_fault_head _ _ _ Hf2)).
    rewrite advance_advance, log_advance.
    unfold surfaced, wrap_outer, io_raise; cbn.
    destruct (is_SerialException e); reflexivity. }
  rewrite (serial_call_ok dev _ _
             (sound_for_head _ _ k (first_fault_sound _ _ _ _ Hf2))).
  rewrite advance_advance.
  pose proof (first_fault_shift dev m
                (([EvOpen (port (config self)) (baudrate (config self))
                     (databits (config self)) (parity (config self))
                     (stopbits (config self))] ++ [EvFlushOutput])
                 ++ [EvFlushInput])
                (2 + 1) k e Hf) as Hf3.
  rewrite (send_tnc_commands_fault _ k e ltac:(lia) Hf3).
  rewrite advance_advance, log_advance.
  unfold surfaced, wrap_outer, io_raise, events_until_fault, opening.
  replace (S (S (S k)) - 3)%nat with k by lia.
  replace (2 + 1 + S k)%nat with (S (S (S (S k)))) by lia.
  cbn [Nat.ltb Nat.leb take app].
  rewrite <- ?app_assoc, take_nil. cbn [app].
  destruct (is_SerialException (wrap_inner e)); reflexivity.
Qed.
End Transmission.

(* ================================================================== *)
(** ** [postData] *)
(* ================================================================== *)

Section PostData.
Context {collab : Collaborators}.

(** [postData] is its effect-free first part, then the transmission,
    then the assignment to [_lastpost]. *)
Lemma postData_unfold (arch : archive) (now : float) (time_ts : Z)
    (dev : Device) (m : Machine) :
  postData arch now time_ts dev m =
  match packet_for (aprs m) arch now time_ts with
  | Raise e => (Raise e, m)
  | Ok packet =>
      match transmission (aprs m) dev packet m with
      | (Ok _, m') => set_lastpost time_ts m'
      | (Raise e, m') => (Raise e, m')
      end
  end.
Proof.
  unfold postData, packet_for, transmission, get_self, lift.
  unfold mbind, io_mbind, io_bind, result_bind, rbind.
  destruct (_check_post_conditions (aprs m) arch now time_ts)
    as [status | e]; [| reflexivity].
  destruct (negb (bool_decide (status = SUCCESS))); [reflexivity |].
  destruct (extractRecordFrom arch time_ts) as [r | e]; [| reflexivity].
  destruct (dict_item r "usUnits") as [us | e]; [| reflexivity].
  destruct (pyobj_ne us (Some (PyInt weewx.US))); [reflexivity |].
  destruct (format_weather_data (config (aprs m)) r) as [packet | e];
    reflexivity.
Qed.

(** A gate outcome other than SUCCESS: the string raised is not an
    exception, so whatever the outcome the caller gets one and the same
    [TypeError]; nothing else happens. *)
Lemma postData_rejected (arch : archive) (now : float) (time_ts : Z)
    (dev : Device) (m : Machine) (status : APRSStatus) :
  _check_post_conditions (aprs m) arch now time_ts = Ok status ->
  status <> SUCCESS ->
  postData arch now time_ts dev m =
    (Raise (TypeError "exceptions must derive from BaseException"), m).
Proof.
  intros Hgate Hne. rewrite postData_unfold. unfold packet_for.
  rewrite Hgate. cbn.
  rewrite bool_decide_eq_false_2 by exact Hne. reflexivity.
Qed.

(** A record in another unit system: the same [TypeError], and nothing
    else happens. *)
Lemma postData_wrong_units (arch : archive) (now : float) (time_ts : Z)
    (dev : Device) (m : Machine) (r : record) (us : pyobj) :
  _check_post_conditions (aprs m) arch now time_ts = Ok SUCCESS ->
  extractRecordFrom arch time_ts = Ok r ->
  r !! "usUnits" = Some us ->
  pyobj_ne us (Some (PyInt weewx.US)) = true ->
  postData arch now time_ts dev m =
    (Raise (TypeError "exceptions must derive from BaseException"), m).
Proof.
  intros Hgate Hrec Hus Hne. rewrite postData_unfold. unfold packet_for.
  rewrite Hgate. cbn. rewrite Hrec. cbn.
  unfold dict_item. rewrite Hus. cbn. rewrite Hne. reflexivity.
Qed.
End PostData.

(** The writes among the events of a list of commands are the commands,
    in order. *)
Lemma writes_of_events (cmds : list (string * Z)) :
  filter is_write (events_of cmds) = map (fun c => EvWrite c.1) cmds.
Proof.
  induction cmds as [| [cmd delay] cmds IH]; [reflexivity |].
  cbn [events_of flat_map map fst]. fold (events_of cmds).
  destruct (delay =? 0); cbn; rewrite <- IH; reflexivity.
Qed.

Lemma opening_no_write (c : APRSConfig) (j : nat) :
  filter is_write (take j (opening c)) = [].
Proof.
  destruct j as [| [| [| j]]]; cbn [take opening]; rewrite ?take_nil;
    reflexivity.
Qed.

Lemma opening_no_lastpost (c : APRSConfig) (j : nat) :
  filter is_lastpost (take j (opening c)) = [].
Proof.
  destruct j as [| [| [| j]]]; cbn [take opening]; rewrite ?take_nil;
    reflexivity.
Qed.

Lemma events_of_no_lastpost (cmds : list (string * Z)) :
  filter is_lastpost (events_of cmds) = [].
Proof.
  induction cmds as [| [cmd delay] cmds IH]; [reflexivity |].
  cbn [events_of flat_map]. fold (events_of cmds).
  rewrite filter_app, IH.
  destruct (delay =? 0); reflexivity.
Qed.

Lemma writes_until_fault (c : APRSConfig) (packet : string) (k : nat) :
  filter is_write (events_until_fault c packet k) =
  take (k - 3) (seven_writes c packet).
Proof.
  unfold events_until_fault.
  destruct k as [| k]; [reflexivity |].
  rewrite !filter_app, writes_of_events.
  rewrite opening_no_write.
  cbn [app filter is_write]. rewrite app_nil_r.
  rewrite <- (firstn_map (fun c0 : string * Z => EvWrite c0.1)). reflexivity.
Qed.

Section PostDataClaims.
Context {collab : Collaborators}.

(** C9.  An attempt that reaches the serial port with [packet], on a
    port that raises nothing: the port is opened, the output and the
    input buffer are flushed, and then exactly the script follows:
    control byte 3 and one second; [mycall] with the station, [unproto]
    with the path, [conv], the packet and [>] with the status message,
    each ended by a carriage return and followed by one second; control
    byte 3 and no wait; then the port is closed.  On any port, the
    writes of the attempt are the first few of these seven, in this
    order. *)
Theorem C9_tnc_sequence (arch : archive) (now : float) (time_ts : Z)
    (m : Machine) (packet : string) :
  packet_for (aprs m) arch now time_ts = Ok packet ->
  let c := config (aprs m) in
  (forall dev, sound_for dev m 10 ->
     exists m', postData arch now time_ts dev m = (Ok tt, m') /\
       trace m' = (trace m ++
         [ EvOpen (port c) (baudrate c) (databits c) (parity c) (stopbits c);
           EvFlushOutput; EvFlushInput;
           EvWrite ctrl_C; EvSleep 1;
           EvWrite ("mycall " +:+ station c +:+ CR); EvSleep 1;
           EvWrite ("unproto " +:+ unproto c +:+ CR); EvSleep 1;
           EvWrite ("conv" +:+ CR); EvSleep 1;
           EvWrite (packet +:+ CR); EvSleep 1;
           EvWrite (">" +:+ status_message c +:+ CR); EvSleep 1;
           EvWrite ctrl_C;
           EvClose; EvLastpost time_ts ])%list) /\
  (forall dev, exists evs n,
     trace (postData arch now time_ts dev m).2 = (trace m ++ evs)%list /\
     filter is_write evs = take n (seven_writes c packet)) /\
  ctrl_C = String (ascii_of_nat 3) EmptyString /\
  CR = String (ascii_of_nat 13) EmptyString.
Proof.
  intros Hp c. split; [| split; [| split; reflexivity]].
  - intros dev Hs. rewrite postData_unfold, Hp.
    rewrite (transmission_sound (aprs m) dev packet m Hs).
    eexists. split; [reflexivity |].
    cbn. rewrite <- !app_assoc. reflexivity.
  - intros dev. rewrite postData_unfold, Hp.
    destruct (sound_or_first_fault dev m 10) as [Hs | (k & e & Hk & Hf)].
    + rewrite (transmission_sound (aprs m) dev packet m Hs).
      eexists _, 7%nat. cbn. split; [rewrite <- app_assoc; reflexivity |].
      reflexivity.
    + rewrite (transmission_fault (aprs m) dev packet m k e Hk Hf).
      exists (events_until_fault c packet k), (k - 3)%nat.
      split; [reflexivity | apply writes_until_fault].
Qed.

(** C5.  [_lastpost] after a post attempt.  When [postData] returns,
    every one of the ten calls on the port (open, two flushes, seven
    writes) was made and none raised, the whole script is in the trace,
    and after it, once, [_lastpost] was set to the time stamp posted.
    When [postData] raises, the uploader object is as it was and no
    assignment to [_lastpost] was made; if the attempt had reached the
    port, one of the ten calls raised and the caller gets an
    [APRSError]. *)
Theorem C5_lastpost_after_full_script (arch : archive) (now : float)
    (time_ts : Z) (dev : Device) (m : Machine) :
  let out := postData arch now time_ts dev m in
  let c := config (aprs m) in
  match out.1 with
  | Ok _ =>
      sound_for dev m 10 /\
      exists packet,
        packet_for (aprs m) arch now time_ts = Ok packet /\
        length (filter is_write (tnc_script c packet)) = 7%nat /\
        filter is_lastpost
          (opening c ++ tnc_script c packet ++ [EvClose])%list = [] /\
        out.2 =
          mkMachine (mkAPRS (site (aprs m)) c (Some time_ts))
            (trace m ++ (opening c ++ tnc_script c packet ++ [EvClose])
               ++ [EvLastpost time_ts])%list
            (calls m + 10)
  | Raise e =>
      aprs out.2 = aprs m /\
      (exists evs, trace out.2 = (trace m ++ evs)%list /\
                   filter is_lastpost evs = []) /\
      (forall packet,
         packet_for (aprs m) arch now time_ts = Ok packet ->
         is_APRSError e = true /\
         exists k e0, (k < 10)%nat /\ first_fault dev m k e0 /\
                      e = surfaced k e0)
  end.
Proof.
  cbv zeta. rewrite postData_unfold.
  destruct (packet_for (aprs m) arch now time_ts) as [packet | e] eqn:Hp.
  - destruct (sound_or_first_fault dev m 10) as [Hs | (k & e & Hk & Hf)].
    + rewrite (transmission_sound (aprs m) dev packet m Hs).
      unfold set_lastpost, log, advance.
      cbn [fst snd aprs trace calls site config].
      split; [exact Hs |].
      exists packet.
      split; [reflexivity | split; [reflexivity | split; [reflexivity |]]].
      f_equal. rewrite <- !app_assoc. reflexivity.
    + rewrite (transmission_fault (aprs m) dev packet m k e Hk Hf).
      cbn. split; [reflexivity | split].
      * exists (events_until_fault (config (aprs m)) packet k).
        split; [reflexivity |].
        unfold events_until_fault. destruct k as [| k]; [reflexivity |].
        rewrite !filter_app, opening_no_lastpost, events_of_no_lastpost.
        reflexivity.
      * intros packet' [= <-]. split.
        { unfold surfaced, wrap_outer. destruct (k <? 3)%nat; reflexivity. }
        exists k, e. repeat split; try assumption; apply Hf.
  - cbn. split; [reflexivity | split].
    + exists []. split; [symmetry; apply app_nil_r | reflexivity].
    + intros packet [=].
Qed.
End PostDataClaims.

(** The fixture's attempt on a sound port. *)
Lemma C9_tnc_sequence_witness :
  exists m',
    postData (collab := Fixture.collaborators) Fixture.an_archive
      Fixture.a_now Fixture.t0 Fixture.sound (Fixture.a_machine None)
    = (Ok tt, m') /\
    filter is_write (trace m') =
      seven_writes Fixture.a_config
        "@151234z4807.02N12230.00W_180/005g009t072r005p030P120b10130h55L450.DsVP".
Proof.
  destruct (proj1 (C9_tnc_sequence (collab := Fixture.collaborators)
              Fixture.an_archive Fixture.a_now Fixture.t0
              (Fixture.a_machine None)
              "@151234z4807.02N12230.00W_180/005g009t072r005p030P120b10130h55L450.DsVP"
              ltac:(vm_compute; reflexivity))
              Fixture.sound ltac:(intros k _; reflexivity))
    as (m' & Hpost & Htrace).
  exists m'. split; [exact Hpost |].
  rewrite Htrace. reflexivity.
Defined.

(** C4 on the code.  Four attempts, one for each rejection of the gate
    (the uploader disabled; a time stamp that is not the latest; a record
    an hour old; a post ten seconds after the last one with an interval of
    300): the caller gets the same [TypeError] from all four, which names
    none of them, and the machine is as it was. *)
Theorem C4_rejections_are_one_TypeError :
  let gate cfg lastpost now ts :=
    _check_post_conditions (collab := Fixture.collaborators)
      (mkAPRS "aprs" cfg lastpost) Fixture.an_archive now ts in
  let post cfg lastpost now ts :=
    postData (collab := Fixture.collaborators) Fixture.an_archive now ts
      Fixture.sound (mkMachine (mkAPRS "aprs" cfg lastpost) [] 0) in
  let off := Fixture.set_enabled false Fixture.a_config in
  let on := Fixture.a_config in
  let t0 := Fixture.t0 in
  let rejected cfg lastpost :=
    (Raise (TypeError "exceptions must derive from BaseException") : result (),
     mkMachine (mkAPRS "aprs" cfg lastpost) [] 0) in
  gate off None Fixture.a_now t0 = Ok DISABLED /\
  gate on None Fixture.a_now (t0 - 60) = Ok NON_LATEST /\
  gate on None 1710509640.5%float t0 = Ok STALE /\
  gate on (Some (t0 - 10)) Fixture.a_now t0 = Ok INTERVAL_WAIT /\
  post off None Fixture.a_now t0 = rejected off None /\
  post on None Fixture.a_now (t0 - 60) = rejected on None /\
  post on None 1710509640.5%float t0 = rejected on None /\
  post on (Some (t0 - 10)) Fixture.a_now t0 = rejected on (Some (t0 - 10)).
Proof. cbv zeta. repeat split; vm_compute; reflexivity. Qed.

(** C3 on the code.  The latest record is in the metric system and the
    gate lets it through: nothing is written and [_lastpost] stays unset,
    and what the caller gets is the [TypeError] of a raised string, the
    very exception of a gate rejection. *)
Theorem C3_metric_record_raises_TypeError :
  let metric := Fixture.archive_at Fixture.t0 weewx.METRIC in
  let m := Fixture.a_machine None in
  _check_post_conditions (collab := Fixture.collaborators) (aprs m) metric
    Fixture.a_now Fixture.t0 = Ok SUCCESS /\
  (r ← extractRecordFrom (Collaborators := Fixture.collaborators) metric
         Fixture.t0;
   dict_item r "usUnits") = Ok (Some (PyInt 16)) /\
  postData (collab := Fixture.collaborators) metric Fixture.a_now Fixture.t0
    Fixture.sound m
  = (Raise (TypeError "exceptions must derive from BaseException"), m) /\
  postData (collab := Fixture.collaborators) metric Fixture.a_now Fixture.t0
    Fixture.sound m
  = postData (collab := Fixture.collaborators) Fixture.an_archive
      Fixture.a_now (Fixture.t0 - 60) Fixture.sound m.
Proof. cbv zeta. repeat split; vm_compute; reflexivity. Qed.

(* ================================================================== *)
(** ** Width of the number fields *)
(* ================================================================== *)

Lemma length_append (a b : string) :
  String.length (a +:+ b) = (String.length a + String.length b)%nat.
Proof.
  induction a as [| x a IH]; [reflexivity |].
  change (S (String.length (a +:+ b)) = S (String.length a + String.length b)).
  f_equal. exact IH.
Qed.

Lemma length_zeros (k : nat) : String.length (zeros k) = k.
Proof. induction k as [| k IH]; [reflexivity | cbn; f_equal; exact IH]. Qed.

(** The digits are never dropped: the result is at least as long as the
    digits already there. *)
Lemma digits_aux_grows (fuel : nat) (n : Z) (acc : string) :
  (String.length acc <= String.length (digits_aux fuel n acc))%nat.
Proof.
  revert n acc. induction fuel as [| fuel IH]; intros n acc; cbn; [lia |].
  destruct (n / 10 =? 0); [cbn; lia |].
  etransitivity; [| apply IH]. cbn. lia.
Qed.

(** A number of at least [10 ^ k] has more than [k] digits. *)
Lemma digits_aux_long (fuel : nat) :
  forall (n : Z) (acc : string) (k : nat),
    0 <= n < 2 ^ Z.of_nat fuel -> 10 ^ Z.of_nat k <= n ->
    (String.length acc + k < String.length (digits_aux fuel n acc))%nat.
Proof.
  induction fuel as [| fuel IH]; intros n acc k Hn Hk.
  - cbn in Hn. assert (0 < 10 ^ Z.of_nat k) by (apply Z.pow_pos_nonneg; lia). lia.
  - cbn [digits_aux].
    assert (Hpow : 2 ^ Z.of_nat (S fuel) = 2 * 2 ^ Z.of_nat fuel)
      by (rewrite Nat2Z.inj_succ, Z.pow_succ_r by lia; reflexivity).
    destruct (Z.eqb_spec (n / 10) 0) as [Hz | Hz].
    + assert (n < 10).
      { destruct (Z.lt_ge_cases n 10) as [|Hge]; [assumption |].
        assert (1 <= n / 10) by (apply Z.div_le_lower_bound; lia). lia. }
      destruct k as [| k].
      * cbn. lia.
      * rewrite Nat2Z.inj_succ, Z.pow_succ_r in Hk by lia.
        assert (0 < 10 ^ Z.of_nat k) by (apply Z.pow_pos_nonneg; lia). lia.
    + assert (Hq : 0 <= n / 10 < 2 ^ Z.of_nat fuel).
      { split; [apply Z.div_pos; lia |].
        apply Z.div_lt_upper_bound; lia. }
      destruct k as [| k].
      * pose proof (digits_aux_grows fuel (n / 10)
                      (String (digit_char (n mod 10)) acc)) as Hg.
        cbn in Hg. lia.
      * assert (Hk' : 10 ^ Z.of_nat k <= n / 10).
        { apply Z.div_le_lower_bound; [lia |].
          rewrite Nat2Z.inj_succ, Z.pow_succ_r in Hk by lia. lia. }
        pose proof (IH (n / 10) (String (digit_char (n mod 10)) acc) k Hq Hk')
          as Hl.
        cbn in Hl. lia.
Qed.

Lemma digits_long (n : Z) (k : nat) :
  10 ^ Z.of_nat k <= n -> (k < String.length (digits n))%nat.
Proof.
  intros Hk.
  assert (0 < 10 ^ Z.of_nat k) by (apply Z.pow_pos_nonneg; lia).
  unfold digits.
  apply (digits_aux_long (S (Z.to_nat (Z.log2 n))) n EmptyString k);
    [| exact Hk].
  split; [lia |].
  rewrite Nat2Z.inj_succ, Z2Nat.id by apply Z.log2_nonneg.
  apply Z.log2_spec. lia.
Qed.

(** A [03d] field is three characters for the integers from -99 to 999,
    and longer for every other integer. *)
Lemma format_03d_width (n : Z) :
  (3 <= String.length (format_0d 3 n))%nat /\
  (String.length (format_0d 3 n) = 3%nat <-> -99 <= n <= 999).
Proof.
  assert (Hin : -99 <= n <= 999 -> String.length (format_0d 3 n) = 3%nat).
  { intros Hn.
    apply Nat.eqb_eq.
    replace n with ((n + 99) - 99) by lia.
    apply (Z_range_forall
             (fun k => (String.length (format_0d 3 (k - 99)) =? 3)%nat) 1099);
      [vm_compute; reflexivity | lia]. }
  assert (Hout : ~ (-99 <= n <= 999) ->
                 (3 < String.length (format_0d 3 n))%nat).
  { intros Hn. unfold format_0d.
    destruct (Z.ltb_spec n 0) as [Hneg | Hpos].
    - pose proof (digits_long (Z.abs n) 2 ltac:(cbn; lia)) as Hd.
      rewrite !length_append, length_zeros. cbn [String.length]. lia.
    - pose proof (digits_long (Z.abs n) 3 ltac:(cbn; lia)) as Hd.
      rewrite length_append, length_zeros. lia. }
  destruct (Z_le_dec (-99) n) as [Hlo | Hlo];
    [destruct (Z_le_dec n 999) as [Hhi | Hhi] |].
  - rewrite (Hin (conj Hlo Hhi)). split; [lia | tauto].
  - pose proof (Hout ltac:(lia)). split; [lia | split; intros; lia].
  - pose proof (Hout ltac:(lia)). split; [lia | split; intros; lia].
Qed.

Lemma decode_format_03d (n : Z) :
  0 <= n < 1000 -> decode_slot (format_0d 3 n) = Some (Some n).
Proof.
  intros Hn.
  assert (Hb : match decode_slot (format_0d 3 n) with
               | Some (Some k) => k =? n
               | _ => false
               end = true).
  { apply (Z_range_forall
             (fun n => match decode_slot (format_0d 3 n) with
                       | Some (Some k) => k =? n
                       | _ => false
                       end) 1000);
      [vm_compute; reflexivity | exact Hn]. }
  destruct (decode_slot (format_0d 3 n)) as [[k |] |]; try discriminate.
  apply Z.eqb_eq in Hb. subst k. reflexivity.
Qed.

(* ================================================================== *)
(** ** The wind and temperature block *)
(* ================================================================== *)

Lemma slot3_field_int (r : record) (field : string) :
  slot3 r field = (o ← field_int r field; Ok (show3 o)).
Proof.
  unfold slot3, field_int.
  destruct (dict_get r field) as [val |]; [| reflexivity].
  destruct (py_int val); reflexivity.
Qed.

Lemma wind_temp_slots (r : record) :
  _format_wind_temp r =
  (a ← slot3 r "windDir"; b ← slot3 r "windSpeed";
   c ← slot3 r "windGust"; d ← slot3 r "outTemp";
   Ok ("_" +:+ a +:+ "/" +:+ b +:+ "g" +:+ c +:+ "t" +:+ d)).
Proof.
  unfold _format_wind_temp; cbn [mapM].
  change (match dict_get r "windDir" with
          | Some val => n ← py_int val; Ok (format_0d 3 n)
          | None => Ok "..." end) with (slot3 r "windDir").
  change (match dict_get r "windSpeed" with
          | Some val => n ← py_int val; Ok (format_0d 3 n)
          | None => Ok "..." end) with (slot3 r "windSpeed").
  change (match dict_get r "windGust" with
          | Some val => n ← py_int val; Ok (format_0d 3 n)
          | None => Ok "..." end) with (slot3 r "windGust").
  change (match dict_get r "outTemp" with
          | Some val => n ← py_int val; Ok (format_0d 3 n)
          | None => Ok "..." end) with (slot3 r "outTemp").
  destruct (slot3 r "windDir"); [| reflexivity].
  destruct (slot3 r "windSpeed"); [| reflexivity].
  destruct (slot3 r "windGust"); [| reflexivity].
  destruct (slot3 r "outTemp"); reflexivity.
Qed.

(** The integers of the four fields determine the block. *)
Lemma wind_temp_of_ints (r : record) (ns : list (option Z)) :
  mapM (field_int r) wind_temp_fields = Ok ns ->
  exists a b c d,
    ns = [a; b; c; d] /\
    _format_wind_temp r =
      Ok ("_" +:+ show3 a +:+ "/" +:+ show3 b +:+ "g" +:+ show3 c
          +:+ "t" +:+ show3 d).
Proof.
  unfold wind_temp_fields; cbn [mapM]. intros Hns.
  rewrite wind_temp_slots, !slot3_field_int.
  destruct (field_int r "windDir") as [a |]; [| discriminate].
  destruct (field_int r "windSpeed") as [b |]; [| discriminate].
  destruct (field_int r "windGust") as [c |]; [| discriminate].
  destruct (field_int r "outTemp") as [d |]; [| discriminate].
  injection Hns as <-. exists a, b, c, d. split; reflexivity.
Qed.

Lemma show3_width (o : option Z) :
  (3 <= String.length (show3 o))%nat /\
  (String.length (show3 o) = 3%nat <-> fits3 o).
Proof.
  destruct o as [n |]; cbn [show3 fits3]; [apply format_03d_width |].
  split; [cbn; lia | split; [tauto | reflexivity]].
Qed.

(** X2.  The wind and temperature block is never shorter than its 16
    characters, and it is 16 characters long exactly when the integer of
    every field that is present lies between -99 and 999: a larger or a
    smaller reading is written in full and widens the block. *)
Theorem wind_temp_width (r : record) (ns : list (option Z)) :
  mapM (field_int r) wind_temp_fields = Ok ns ->
  exists s,
    _format_wind_temp r = Ok s /\
    (16 <= String.length s)%nat /\
    (String.length s = 16%nat <-> Forall fits3 ns).
Proof.
  intros Hns.
  destruct (wind_temp_of_ints r ns Hns) as (a & b & c & d & -> & Hs).
  eexists. split; [exact Hs |].
  rewrite !length_append. cbn [String.length].
  destruct (show3_width a) as [La Ha], (show3_width b) as [Lb Hb],
    (show3_width c) as [Lc Hc], (show3_width d) as [Ld Hd].
  split; [lia |]. split.
  - intros Hlen.
    repeat constructor; [apply Ha | apply Hb | apply Hc | apply Hd]; lia.
  - intros Hall.
    inversion Hall as [| ? ? Fa Hall1]; subst.
    inversion Hall1 as [| ? ? Fb Hall2]; subst.
    inversion Hall2 as [| ? ? Fc Hall3]; subst.
    inversion Hall3 as [| ? ? Fd _]; subst.
    apply Ha in Fa. apply Hb in Fb. apply Hc in Fc. apply Hd in Fd. lia.
Qed.

Lemma wind_temp_width_witness :
  exists s,
    _format_wind_temp
      (<["outTemp" := Some (PyFloat (-12.5))]>
         (delete "windGust" Fixture.a_record)) = Ok s /\
    String.length s = 16%nat.
Proof.
  assert (Hns : mapM (field_int
                        (<["outTemp" := Some (PyFloat (-12.5))]>
                           (delete "windGust" Fixture.a_record)))
                  wind_temp_fields
                = Ok [Some 180; Some 5; None; Some (-12)])
    by (vm_compute; reflexivity).
  pose proof (wind_temp_width _ _ Hns) as (s & Hs & _ & Hw).
  exists s. split; [exact Hs |].
  apply Hw. repeat constructor; unfold fits3; lia.
Defined.

Lemma length3_inv (s : string) :
  String.length s = 3%nat ->
  exists x y z, s = String x (String y (String z EmptyString)).
Proof.
  destruct s as [| x [| y [| z [| w s]]]]; cbn; try discriminate.
  intros _. exists x, y, z. reflexivity.
Qed.

(** A block made of four slots of three characters reads back slot by
    slot. *)
Lemma decode_wind_temp_slots (a b c d : string) :
  String.length a = 3%nat -> String.length b = 3%nat ->
  String.length c = 3%nat -> String.length d = 3%nat ->
  decode_wind_temp ("_" +:+ a +:+ "/" +:+ b +:+ "g" +:+ c +:+ "t" +:+ d) =
  (a' ← decode_slot a; b' ← decode_slot b; c' ← decode_slot c;
   d' ← decode_slot d; Some [a'; b'; c'; d']).
Proof.
  intros Ha Hb Hc Hd.
  destruct (length3_inv a Ha) as (a1 & a2 & a3 & ->).
  destruct (length3_inv b Hb) as (b1 & b2 & b3 & ->).
  destruct (length3_inv c Hc) as (c1 & c2 & c3 & ->).
  destruct (length3_inv d Hd) as (d1 & d2 & d3 & ->).
  reflexivity.
Qed.

Lemma show3_reads_back (o : option Z) :
  three_digit o ->
  String.length (show3 o) = 3%nat /\ decode_slot (show3 o) = Some o.
Proof.
  destruct o as [n |]; cbn [three_digit show3]; intros Hn.
  - split; [apply format_03d_width; lia | apply decode_format_03d; exact Hn].
  - split; reflexivity.
Qed.

(** X1.  The wind and temperature block reads back.  When every field
    that is present has its integer part between 0 and 999, decoding the
    block by position (16 characters, [_], [/], [g] and [t] at their
    places) gives back these integers, and "no data" for the fields that
    are absent. *)
Theorem wind_temp_round_trip (r : record) (ns : list (option Z)) :
  mapM (field_int r) wind_temp_fields = Ok ns ->
  Forall three_digit ns ->
  exists s, _format_wind_temp r = Ok s /\ decode_wind_temp s = Some ns.
Proof.
  intros Hns Hall.
  destruct (wind_temp_of_ints r ns Hns) as (a & b & c & d & -> & Hs).
  inversion Hall as [| ? ? Fa Hall1]; subst.
  inversion Hall1 as [| ? ? Fb Hall2]; subst.
  inversion Hall2 as [| ? ? Fc Hall3]; subst.
  inversion Hall3 as [| ? ? Fd _]; subst.
  destruct (show3_reads_back a Fa) as [La Da], (show3_reads_back b Fb) as [Lb Db],
    (show3_reads_back c Fc) as [Lc Dc], (show3_reads_back d Fd) as [Ld Dd].
  eexists. split; [exact Hs |].
  rewrite (decode_wind_temp_slots _ _ _ _ La Lb Lc Ld), Da, Db, Dc, Dd.
  reflexivity.
Qed.

Lemma wind_temp_round_trip_witness :
  exists s,
    _format_wind_temp (delete "windSpeed" Fixture.a_record) = Ok s /\
    decode_wind_temp s = Some [Some 180; None; Some 9; Some 72].
Proof.
  assert (Hns : mapM (field_int (delete "windSpeed" Fixture.a_record))
                  wind_temp_fields
                = Ok [Some 180; None; Some 9; Some 72])
    by (vm_compute; reflexivity).
  apply (wind_temp_round_trip _ _ Hns).
  repeat constructor; unfold three_digit; lia.
Defined.

Lemma py_int_finite (v : number) :
  (exists n, py_int v = Ok n) <-> finite v.
Proof.
  unfold finite. destruct v as [z | f]; cbn [py_int value_of].
  - split; intros _; eauto.
  - unfold float_trunc.
    destruct (float_value f) as [| | num den |]; split;
      try (intros (n & [=])); try (intros (n & d & [=])); eauto.
Qed.

Lemma py_int_raises (v : number) (e : exn) :
  py_int v = Raise e ->
  (value_of v = NaN /\
   e = ValueError "cannot convert float NaN to integer") \/
  ((value_of v = NegInf \/ value_of v = PosInf) /\
   e = OverflowError "cannot convert float infinity to integer").
Proof.
  destruct v as [z | f]; cbn [py_int value_of]; [discriminate |].
  unfold float_trunc.
  destruct (float_value f) as [| | num den |]; intros [= <-]; auto.
Qed.

Lemma slot3_ok (r : record) (field : string) :
  (exists s, slot3 r field = Ok s) <->
  (forall v, dict_get r field = Some v -> finite v).
Proof.
  unfold slot3. destruct (dict_get r field) as [val |].
  - split.
    + intros (s & Hs) v [= <-]. apply py_int_finite.
      destruct (py_int val) as [n |]; [eauto | discriminate].
    + intros Hv.
      destruct (proj2 (py_int_finite val) (Hv val eq_refl)) as (n & ->).
      cbn. eauto.
  - split; [intros _ v [=] | eauto].
Qed.

(** X3.  The wind and temperature block fails exactly when one of its
    four fields holds a NaN or an infinity: an absent field and every
    finite number are encoded, and the failure is the [ValueError] or
    [OverflowError] of [int]. *)
Theorem wind_temp_fails_on_non_finite (r : record) :
  ((exists s, _format_wind_temp r = Ok s) <->
   (forall field v, field ∈ wind_temp_fields ->
      dict_get r field = Some v -> finite v)) /\
  (forall e, _format_wind_temp r = Raise e ->
     e = ValueError "cannot convert float NaN to integer" \/
     e = OverflowError "cannot convert float infinity to integer").
Proof.
  rewrite wind_temp_slots.
  pose proof (slot3_ok r "windDir") as H1.
  pose proof (slot3_ok r "windSpeed") as H2.
  pose proof (slot3_ok r "windGust") as H3.
  pose proof (slot3_ok r "outTemp") as H4.
  assert (Hraise : forall field e, slot3 r field = Raise e ->
            e = ValueError "cannot convert float NaN to integer" \/
            e = OverflowError "cannot convert float infinity to integer").
  { intros field e. unfold slot3.
    destruct (dict_get r field) as [val |]; [| discriminate].
    destruct (py_int val) as [n | e'] eqn:Hi; [discriminate |].
    intros [= <-]. destruct (py_int_raises val e' Hi) as [[_ ->] | [_ ->]]; auto. }
  split.
  - split.
    + intros (s & Hs) field v Hin.
      unfold wind_temp_fields in Hin. set_unfold in Hin.
      destruct (slot3 r "windDir") eqn:E1; [| discriminate].
      destruct (slot3 r "windSpeed") eqn:E2; [| discriminate].
      destruct (slot3 r "windGust") eqn:E3; [| discriminate].
      destruct (slot3 r "outTemp") eqn:E4; [| discriminate].
      destruct_or! Hin; subst field;
        [apply H1 | apply H2 | apply H3 | apply H4]; eauto.
    + intros Hall. clear H1 H2 H3 H4 Hraise.
      assert (Hin : forall field, field ∈ wind_temp_fields ->
                exists s, slot3 r field = Ok s).
      { intros field Hf. apply slot3_ok. intros v. apply Hall. exact Hf. }
      destruct (Hin "windDir" ltac:(unfold wind_temp_fields; set_solver))
        as (a & ->).
      destruct (Hin "windSpeed" ltac:(unfold wind_temp_fields; set_solver))
        as (b & ->).
      destruct (Hin "windGust" ltac:(unfold wind_temp_fields; set_solver))
        as (c & ->).
      destruct (Hin "outTemp" ltac:(unfold wind_temp_fields; set_solver))
        as (d & ->).
      eexists. reflexivity.
  - intros e.
    destruct (slot3 r "windDir") eqn:E1;
      [| intros [= <-]; eapply Hraise; exact E1].
    destruct (slot3 r "windSpeed") eqn:E2;
      [| intros [= <-]; eapply Hraise; exact E2].
    destruct (slot3 r "windGust") eqn:E3;
      [| intros [= <-]; eapply Hraise; exact E3].
    destruct (slot3 r "outTemp") eqn:E4;
      [| intros [= <-]; eapply Hraise; exact E4].
    discriminate.
Qed.

(* ================================================================== *)
(** ** The rain, humidity and barometer blocks *)
(* ================================================================== *)

Lemma rain_of_ints (r : record) (ns : list (option Z)) :
  mapM (field_hundredths r) rain_fields = Ok ns ->
  exists a b c,
    ns = [a; b; c] /\
    _format_rain r =
      Ok ("r" +:+ show3 a +:+ "p" +:+ show3 b +:+ "P" +:+ show3 c).
Proof.
  unfold rain_fields, _format_rain, field_hundredths; cbn [mapM]. intros Hns.
  destruct (dict_get r "rain") as [v1 |];
    [destruct (py_mul v1 (PyInt 100)) as [s1 |]; [| discriminate];
     cbn in Hns |- *; destruct (py_int s1) as [a |]; [| discriminate] |];
  (destruct (dict_get r "rain24") as [v2 |];
    [destruct (py_mul v2 (PyInt 100)) as [s2 |]; [| discriminate];
     cbn in Hns |- *; destruct (py_int s2) as [b |]; [| discriminate] |]);
  (destruct (dict_get r "dailyrain") as [v3 |];
    [destruct (py_mul v3 (PyInt 100)) as [s3 |]; [| discriminate];
     cbn in Hns |- *; destruct (py_int s3) as [c |]; [| discriminate] |]);
  cbn in Hns; injection Hns as <-; do 3 eexists; split; reflexivity.
Qed.

(** X4.  The rain block is never shorter than its 12 characters, and it
    is 12 characters long exactly when each amount that is present, in
    hundredths of an inch, lies between -99 and 999: ten inches or more
    are written in full and widen the block. *)
Theorem rain_width (r : record) (ns : list (option Z)) :
  mapM (field_hundredths r) rain_fields = Ok ns ->
  exists s,
    _format_rain r = Ok s /\
    (12 <= String.length s)%nat /\
    (String.length s = 12%nat <-> Forall fits3 ns).
Proof.
  intros Hns.
  destruct (rain_of_ints r ns Hns) as (a & b & c & -> & Hs).
  eexists. split; [exact Hs |].
  rewrite !length_append. cbn [String.length].
  destruct (show3_width a) as [La Ha], (show3_width b) as [Lb Hb],
    (show3_width c) as [Lc Hc].
  split; [lia |]. split.
  - intros Hlen.
    repeat constructor; [apply Ha | apply Hb | apply Hc]; lia.
  - intros Hall.
    inversion Hall as [| ? ? Fa Hall1]; subst.
    inversion Hall1 as [| ? ? Fb Hall2]; subst.
    inversion Hall2 as [| ? ? Fc _]; subst.
    apply Ha in Fa. apply Hb in Fb. apply Hc in Fc. lia.
Qed.

Lemma rain_width_witness :
  exists s,
    _format_rain (<["dailyrain" := Some (PyFloat 12.5)]> Fixture.a_record)
      = Ok s /\
    String.length s <> 12%nat.
Proof.
  assert (Hns : mapM (field_hundredths
                        (<["dailyrain" := Some (PyFloat 12.5)]>
                           Fixture.a_record)) rain_fields
                = Ok [Some 5; Some 30; Some 1250])
    by (vm_compute; reflexivity).
  pose proof (rain_width _ _ Hns) as (s & Hs & _ & Hw).
  exists s. split; [exact Hs |].
  intros Hlen. apply Hw in Hlen.
  inversion Hlen as [| ? ? _ H1]; subst.
  inversion H1 as [| ? ? _ H2]; subst.
  inversion H2 as [| ? ? H3 _]; subst.
  unfold fits3 in H3. lia.
Defined.

(** X5.  The humidity block and values that are not numbers.  A NaN and
    plus infinity are not below 100 and give [h00]; minus infinity is
    below 100 and makes [int] raise [OverflowError]; these are the only
    failures: every other record gives a block. *)
Theorem humidity_non_finite (r : record) :
  (forall v, dict_get r "outHumidity" = Some v ->
     value_of v = NaN \/ value_of v = PosInf ->
     _format_humidity r = Ok "h00") /\
  (forall v, dict_get r "outHumidity" = Some v -> value_of v = NegInf ->
     _format_humidity r =
       Raise (OverflowError "cannot convert float infinity to integer")) /\
  ((exists e, _format_humidity r = Raise e) <->
   (exists v, dict_get r "outHumidity" = Some v /\ value_of v = NegInf)).
Proof.
  unfold _format_humidity.
  assert (Hlt : forall v, py_lt v (PyFloat 100) =
            match value_of v with
            | NegInf => true
            | Finite n d => n <? 100 * d
            | _ => false
            end).
  { intros v. rewrite py_lt_100.
    unfold py_lt, py_compare; cbn [value_of].
    destruct (value_of v) as [| | n d |]; cbn; try reflexivity.
    rewrite Z.mul_1_r. unfold Z.ltb.
    destruct (n ?= 100 * d); reflexivity. }
  assert (Hint : forall v, value_of v = NegInf ->
            py_int v =
              Raise (OverflowError "cannot convert float infinity to integer")).
  { intros [z | f]; cbn [value_of py_int]; [discriminate |].
    unfold float_trunc. intros ->. reflexivity. }
  split; [| split].
  - intros v -> Hv. rewrite Hlt. destruct Hv as [-> | ->]; reflexivity.
  - intros v -> Hv. rewrite Hlt, Hv, (Hint v Hv). reflexivity.
  - split.
    + intros (e & He).
      destruct (dict_get r "outHumidity") as [v |]; [| discriminate].
      exists v. split; [reflexivity |].
      rewrite Hlt in He.
      destruct v as [z | f]; cbn [value_of py_int] in *.
      * destruct (z <? 100 * 1); discriminate.
      * unfold float_trunc in He.
        destruct (float_value f) as [| | n d |]; try discriminate;
          [reflexivity |].
        destruct (n <? 100 * d); discriminate.
    + intros (v & -> & Hv). rewrite Hlt, Hv, (Hint v Hv). eauto.
Qed.

Lemma humidity_non_finite_witness :
  _format_humidity (<["outHumidity" := Some (PyFloat nan)]> Fixture.a_record)
    = Ok "h00" /\
  _format_humidity
    (<["outHumidity" := Some (PyFloat neg_infinity)]> Fixture.a_record)
    = Raise (OverflowError "cannot convert float infinity to integer").
Proof.
  split.
  - apply (proj1 (humidity_non_finite _) (PyFloat nan));
      [vm_compute; reflexivity | left; vm_compute; reflexivity].
  - apply (proj1 (proj2 (humidity_non_finite _)) (PyFloat neg_infinity));
      vm_compute; reflexivity.
Defined.

(** A number below [10 ^ k] has at most [k] digits (and at least one). *)
Lemma digits_aux_short (fuel : nat) :
  forall (n : Z) (acc : string) (k : nat),
    0 <= n < 10 ^ Z.of_nat k ->
    (String.length (digits_aux fuel n acc)
     <= String.length acc + Nat.max k 1)%nat.
Proof.
  induction fuel as [| fuel IH]; intros n acc k Hn; cbn [digits_aux]; [lia |].
  destruct (Z.eqb_spec (n / 10) 0) as [Hz | Hz]; [cbn; lia |].
  assert (10 <= n).
  { destruct (Z.lt_ge_cases n 10) as [Hlt |]; [| assumption].
    rewrite Z.div_small in Hz by lia. contradiction. }
  destruct k as [| [| k]]; [cbn in Hn; lia | cbn in Hn; lia |].
  assert (Hq : 0 <= n / 10 < 10 ^ Z.of_nat (S k)).
  { split; [apply Z.div_pos; lia |].
    apply Z.div_lt_upper_bound; [lia |].
    rewrite <- Z.pow_succ_r, <- Nat2Z.inj_succ by lia. lia. }
  pose proof (IH (n / 10) (String (digit_char (n mod 10)) acc) (S k) Hq) as Hl.
  cbn [String.length] in Hl. lia.
Qed.

(** A non-negative integer below [10 ^ width] fills its field exactly. *)
Lemma format_0d_width (width : nat) (n : Z) :
  (1 <= width)%nat -> 0 <= n < 10 ^ Z.of_nat width ->
  String.length (format_0d width n) = width.
Proof.
  intros Hw Hn. unfold format_0d.
  destruct (Z.ltb_spec n 0) as [Hneg | _]; [lia |].
  rewrite Z.abs_eq by lia.
  pose proof (digits_aux_short (S (Z.to_nat (Z.log2 n))) n EmptyString
                width Hn) as Hs.
  fold (digits n) in Hs. cbn [String.length] in Hs.
  rewrite length_append, length_zeros. lia.
Qed.

Lemma format_05d_width (n : Z) :
  0 <= n < 100000 -> String.length (format_0d 5 n) = 5%nat.
Proof. intros Hn. apply format_0d_width; [lia | cbn; lia]. Qed.

Section Barometer.
Context {collab : Collaborators}.

(** X6.  The barometer block.  Without a barometer reading it is
  [b.....] and neither the unit system nor the unit helpers are looked
  at; with a reading and no [usUnits] key the encoder raises
  [KeyError]; with both, the reading converted to millibars, times ten
  and cut to an integer is written as [05d], five digits up to
  9999.9 mbar. *)
Theorem barometer_block (r : record) :
(dict_get r "barometer" = None -> _format_barometer r = Ok "b.....") /\
(forall baro, dict_get r "barometer" = Some baro -> r !! "usUnits" = None ->
   _format_barometer r = Raise (KeyError "usUnits")) /\
(forall baro us unit_type mbar scaled n,
   dict_get r "barometer" = Some baro -> r !! "usUnits" = Some us ->
   getStandardUnitType us "barometer" = Ok unit_type ->
   convert (baro, unit_type.1, unit_type.2) "mbar" = Ok mbar ->
   py_mul mbar (PyInt 10) = Ok scaled -> py_int scaled = Ok n ->
   _format_barometer r = Ok ("b" +:+ format_0d 5 n) /\
   (0 <= n < 100000 ->
    String.length ("b" +:+ format_0d 5 n) = 6%nat)).
Proof.
unfold _format_barometer, dict_item. split; [| split].
- intros ->. reflexivity.
- intros baro -> ->. reflexivity.
- intros baro us unit_type mbar scaled n -> -> Hu Hc Hm Hn. cbn.
  rewrite Hu. cbn. rewrite Hc. cbn. rewrite Hm. cbn. rewrite Hn.
  split; [reflexivity |].
  intros Hr. rewrite length_append, (format_05d_width n Hr). reflexivity.
Qed.
End Barometer.

Lemma barometer_block_witness :
  _format_barometer (collab := Fixture.collaborators) Fixture.a_record
    = Ok "b10130" /\
  _format_barometer (collab := Fixture.collaborators)
    (delete "usUnits" Fixture.a_record) = Raise (KeyError "usUnits").
Proof.
  split.
  - apply (proj1 (proj2 (proj2 (barometer_block (collab := Fixture.collaborators)
             Fixture.a_record))
             (PyFloat 29.92) (Some (PyInt 1)) ("inHg", "group_pressure")
             (PyFloat (29.92 * 33.86)) (PyFloat (29.92 * 33.86 * 10)) 10130
             ltac:(vm_compute; reflexivity) ltac:(vm_compute; reflexivity)
             ltac:(vm_compute; reflexivity) ltac:(vm_compute; reflexivity)
             ltac:(vm_compute; reflexivity) ltac:(vm_compute; reflexivity))).
  - apply (proj1 (proj2 (barometer_block (collab := Fixture.collaborators)
             (delete "usUnits" Fixture.a_record))) (PyFloat 29.92));
      vm_compute; reflexivity.
Defined.

(* ================================================================== *)
(** ** The runs of [postData] *)
(* ================================================================== *)

Lemma events_of_inside (cmds : list (string * Z)) :
  forallb inside_session (events_of cmds) = true.
Proof.
  induction cmds as [| [cmd delay] cmds IH]; [reflexivity |].
  cbn [events_of flat_map]. fold (events_of cmds).
  rewrite forallb_app, IH. destruct (delay =? 0); reflexivity.
Qed.

Lemma slept_app (a b : list event) : slept (a ++ b) = slept a + slept b.
Proof.
  induction a as [| ev a IH]; [reflexivity |].
  cbn [app slept foldr]. fold (slept (a ++ b)) (slept a). rewrite IH.
  destruct ev; lia.
Qed.

Section Runs.
Context {collab : Collaborators}.

(** The three ways a call of [postData] ends: before the port is
  touched; after the whole script; at the first call on the port that
  raises. *)
Lemma postData_run (arch : archive) (now : float) (time_ts : Z)
  (dev : Device) (m : Machine) :
let c := config (aprs m) in
(exists e,
   packet_for (aprs m) arch now time_ts = Raise e /\
   postData arch now time_ts dev m = (Raise e, m)) \/
(exists packet,
   packet_for (aprs m) arch now time_ts = Ok packet /\
   sound_for dev m 10 /\
   postData arch now time_ts dev m =
     (Ok tt,
      mkMachine (mkAPRS (site (aprs m)) c (Some time_ts))
        (trace m ++ (opening c ++ tnc_script c packet ++ [EvClose])
           ++ [EvLastpost time_ts])
        (calls m + 10))) \/
(exists packet k e,
   packet_for (aprs m) arch now time_ts = Ok packet /\
   (k < 10)%nat /\ first_fault dev m k e /\
   postData arch now time_ts dev m =
     (Raise (surfaced k e),
      advance m (events_until_fault c packet k) (S k))).
Proof.
cbv zeta. rewrite postData_unfold.
destruct (packet_for (aprs m) arch now time_ts) as [packet | e] eqn:Hp.
- right.
  destruct (sound_or_first_fault dev m 10) as [Hs | (k & e & Hk & Hf)].
  + left. exists packet. split; [reflexivity | split; [exact Hs |]].
    rewrite (transmission_sound (aprs m) dev packet m Hs).
    unfold set_lastpost, log, advance.
    cbn [fst snd aprs trace calls site config].
    do 2 f_equal. rewrite <- !app_assoc. reflexivity.
  + right. exists packet, k, e.
    split; [reflexivity | split; [exact Hk | split; [exact Hf |]]].
    rewrite (transmission_fault (aprs m) dev packet m k e Hk Hf).
    reflexivity.
- left. exists e. split; reflexivity.
Qed.

(** X7.  The port is touched exactly when the gate has passed, the
  record was fetched in US units and the encoder has produced a packet.
  In every other case (a gate rejection, a failing archive, a missing
  or foreign unit system, an encoder failure such as a NaN reading)
  [postData] raises and the machine is exactly as it was: no call on
  the port, no event, [_lastpost] untouched. *)
Theorem port_untouched_without_packet (arch : archive) (now : float)
  (time_ts : Z) (dev : Device) (m : Machine) :
let out := postData arch now time_ts dev m in
(calls out.2 = calls m <->
 exists e, packet_for (aprs m) arch now time_ts = Raise e) /\
(forall e, packet_for (aprs m) arch now time_ts = Raise e ->
   out = (Raise e, m)).
Proof.
cbv zeta.
destruct (postData_run arch now time_ts dev m)
  as [(e & Hp & ->) | [(packet & Hp & _ & ->) | (packet & k & e & Hp & _ & _ & ->)]];
  cbn [fst snd calls advance]; rewrite Hp.
- split; [split; eauto | intros e' [= <-]; reflexivity].
- split; [split; [lia | intros (e & [=])] | intros e [=]].
- split; [split; [lia | intros (e' & [=])] | intros e' [=]].
Qed.

(** X8.  Every run is at most one session on the port: either nothing
  happens, or the port is opened once, only flushes, writes and sleeps
  follow, and the port is closed once, on success and on failure alike;
  the assignment to [_lastpost] comes after the close only. *)
Theorem port_closed_after_every_attempt (arch : archive) (now : float)
  (time_ts : Z) (dev : Device) (m : Machine) :
exists evs,
  trace (postData arch now time_ts dev m).2 = (trace m ++ evs)%list /\
  one_session evs /\
  length (filter is_open evs) = length (filter is_close evs).
Proof.
destruct (postData_run arch now time_ts dev m)
  as [(e & Hp & ->) | [(packet & Hp & _ & ->) | (packet & k & e & Hp & Hk & _ & ->)]];
  cbn [fst snd trace advance].
- exists []. split; [symmetry; apply app_nil_r |].
  split; [left; reflexivity | reflexivity].
- eexists. split; [reflexivity |]. split; [| reflexivity].
  right. eexists _, ([EvFlushOutput; EvFlushInput]
                      ++ tnc_script (config (aprs m)) packet)%list, _.
  split; [reflexivity |].
  split; [reflexivity | split; [reflexivity | right; eauto]].
- exists (events_until_fault (config (aprs m)) packet k).
  split; [reflexivity |].
  unfold events_until_fault, opening.
  destruct k as [| k]; [split; [left; reflexivity | reflexivity] |].
  cbn [take]. split.
  + right. eexists _, (take k [EvFlushOutput; EvFlushInput]
                        ++ events_of _)%list, [].
    split; [rewrite <- app_assoc; reflexivity |].
    split; [reflexivity | split; [| left; reflexivity]].
    rewrite forallb_app, events_of_inside, andb_true_r.
    destruct k as [| [| k]]; cbn [take]; rewrite ?take_nil; reflexivity.
  + cbn [app]. rewrite !filter_cons. cbn [is_open is_close].
    rewrite !filter_app.
    assert (Ho : forall l : list event,
              forallb inside_session l = true ->
              filter is_open l = [] /\ filter is_close l = []).
    { induction l as [| ev l IH]; [split; reflexivity |].
      cbn [forallb]. intros [Hev Hl]%andb_true_iff.
      destruct (IH Hl) as [IH1 IH2].
      rewrite !filter_cons, IH1, IH2. destruct ev; try discriminate;
        split; reflexivity. }
    assert (Hfl : forallb inside_session (take k [EvFlushOutput; EvFlushInput])
                  = true)
      by (destruct k as [| [| k]]; cbn [take]; rewrite ?take_nil; reflexivity).
    destruct (Ho _ Hfl) as [-> ->].
    destruct (Ho _ (events_of_inside
                      (take (S k - 3) (commands (config (aprs m)) packet))))
      as [-> ->].
    reflexivity.
Qed.
End Runs.

Section RunsMore.
Context {collab : Collaborators}.

(** X9.  What the caller is told when the serial port fails.  A
  [SerialException] from opening the port or from one of the two
  flushes surfaces as [APRSError] "Serial communication error: ...".
  One from any of the seven writes is first turned into an [APRSError]
  by [_send_tnc_commands], which the handler for [Exception] in
  [postData] wraps again: it surfaces as "Unexpected error during APRS
  upload: Failed to send TNC commands: ...", never as a serial
  communication error. *)
Theorem serial_failure_message (arch : archive) (now : float) (time_ts : Z)
  (dev : Device) (m : Machine) (packet : string) (k : nat) (msg : string) :
packet_for (aprs m) arch now time_ts = Ok packet ->
(k < 10)%nat ->
first_fault dev m k (SerialException msg) ->
(postData arch now time_ts dev m).1 =
  Raise (APRSError
           (if (k <? 3)%nat
            then "Serial communication error: " +:+ msg
            else "Unexpected error during APRS upload: "
                 +:+ "Failed to send TNC commands: " +:+ msg)).
Proof.
intros Hp Hk Hf.
rewrite postData_unfold, Hp.
rewrite (transmission_fault (aprs m) dev packet m k _ Hk Hf).
unfold surfaced. destruct (k <? 3)%nat; reflexivity.
Qed.

(** X10.  The time an attempt spends asleep: six seconds when it
  succeeds, with ten calls made on the port; never more than six, and
  never more than ten calls, when it fails. *)
Theorem attempt_sleeps_six_seconds (arch : archive) (now : float)
  (time_ts : Z) (dev : Device) (m : Machine) :
let out := postData arch now time_ts dev m in
exists evs,
  trace out.2 = (trace m ++ evs)%list /\
  0 <= slept evs <= 6 /\
  (calls out.2 <= calls m + 10)%nat /\
  (out.1 = Ok tt -> slept evs = 6 /\ calls out.2 = (calls m + 10)%nat).
Proof.
cbv zeta.
destruct (postData_run arch now time_ts dev m)
  as [(e & Hp & ->) | [(packet & Hp & _ & ->) | (packet & k & e & Hp & Hk & _ & ->)]];
  cbn [fst snd trace calls advance].
- exists []. split; [symmetry; apply app_nil_r |].
  split; [cbn; lia | split; [lia | discriminate]].
- eexists. split; [reflexivity |].
  split; [cbn; lia | split; [lia | intros _; split; reflexivity]].
- exists (events_until_fault (config (aprs m)) packet k).
  split; [reflexivity |].
  split; [| split; [lia | discriminate]].
  do 10 (destruct k as [| k]; [cbn; lia |]). lia.
Qed.
End RunsMore.

Lemma serial_failure_message_witness :
  (postData (collab := Fixture.collaborators) Fixture.an_archive
     Fixture.a_now Fixture.t0 (Fixture.broken_at 1) (Fixture.a_machine None)).1
  = Raise (APRSError "Serial communication error: write failed") /\
  (postData (collab := Fixture.collaborators) Fixture.an_archive
     Fixture.a_now Fixture.t0 (Fixture.broken_at 5) (Fixture.a_machine None)).1
  = Raise (APRSError
             "Unexpected error during APRS upload: Failed to send TNC commands: write failed").
Proof.
  assert (Hp : packet_for (collab := Fixture.collaborators)
                 (aprs (Fixture.a_machine None)) Fixture.an_archive
                 Fixture.a_now Fixture.t0
               = Ok "@151234z4807.02N12230.00W_180/005g009t072r005p030P120b10130h55L450.DsVP")
    by (vm_compute; reflexivity).
  assert (Hf : forall k, first_fault (Fixture.broken_at k)
                 (Fixture.a_machine None) k (SerialException "write failed")).
  { intros k. split.
    - unfold Fixture.broken_at. cbn. rewrite Nat.eqb_refl. reflexivity.
    - intros j Hj. unfold Fixture.broken_at. cbn.
      destruct (Nat.eqb_spec j k); [lia | reflexivity]. }
  split.
  - exact (serial_failure_message (collab := Fixture.collaborators) _ _ _ _ _ _
             1%nat _ Hp ltac:(lia) (Hf 1%nat)).
  - exact (serial_failure_message (collab := Fixture.collaborators) _ _ _ _ _ _
             5%nat _ Hp ltac:(lia) (Hf 5%nat)).
Defined.

(* ================================================================== *)
(** ** The gate across attempts, and the settings *)
(* ================================================================== *)

Section GateMore.
Context {collab : Collaborators}.

Lemma packet_for_gate (self : APRS) (arch : archive) (now : float)
  (time_ts : Z) (packet : string) :
packet_for self arch now time_ts = Ok packet ->
_check_post_conditions self arch now time_ts = Ok SUCCESS.
Proof.
unfold packet_for.
destruct (_check_post_conditions self arch now time_ts) as [status | e];
  [| discriminate].
cbn. destruct status; cbn; try discriminate. reflexivity.
Qed.

Lemma gate_success_inv (self : APRS) (arch : archive) (now : float)
  (time_ts : Z) :
_check_post_conditions self arch now time_ts = Ok SUCCESS ->
enabled (config self) = true /\ time_ts = lastGoodStamp arch.
Proof.
unfold _check_post_conditions.
destruct (enabled (config self)); cbn [negb]; [| discriminate].
destruct (Z.eqb_spec time_ts (lastGoodStamp arch)); cbn [negb];
  [| discriminate].
intros _. split; [reflexivity | assumption].
Qed.

(** X11.  Asking again for the record just posted.  After a successful
  post of [time_ts], while the record is still the latest and not yet
  stale, the gate answers INTERVAL_WAIT when the interval is positive
  and the time stamp is not zero; with the default interval of 0 (or
  with a time stamp of 0) it answers SUCCESS, and the same record is
  transmitted again. *)
Theorem gate_after_successful_post (arch : archive) (now now' : float)
  (time_ts : Z) (dev : Device) (m m' : Machine) (how_old : number) :
postData arch now time_ts dev m = (Ok tt, m') ->
py_sub (PyFloat now') (PyInt time_ts) = Ok how_old ->
py_gt how_old (PyInt (stale (config (aprs m)))) = false ->
_lastpost (aprs m') = Some time_ts /\
_check_post_conditions (aprs m') arch now' time_ts =
  Ok (if negb (time_ts =? 0) && (0 <? interval (config (aprs m)))
      then INTERVAL_WAIT else SUCCESS).
Proof.
intros Hpost Hold Hstale.
destruct (postData_run arch now time_ts dev m)
  as [(e & _ & He) | [(packet & Hp & _ & Hok) | (packet & k & e & _ & _ & _ & He)]];
  try (rewrite He in Hpost; discriminate).
rewrite Hok in Hpost. injection Hpost as <-.
destruct (gate_success_inv _ _ _ _ (packet_for_gate _ _ _ _ _ Hp))
  as [Hen Hlatest].
split; [reflexivity |].
unfold _check_post_conditions. cbn [aprs config _lastpost].
rewrite Hen, <- Hlatest, Z.eqb_refl. cbn [negb].
rewrite Hold. unfold mbind, result_bind, rbind. rewrite Hstale.
cbn [truthy default]. rewrite Z.sub_diag.
destruct (negb (time_ts =? 0) && (0 <? interval (config (aprs m))));
  reflexivity.
Qed.

End GateMore.

Lemma gate_after_successful_post_witness :
  exists m',
    postData (collab := Fixture.collaborators) Fixture.an_archive
      Fixture.a_now Fixture.t0 Fixture.sound (Fixture.a_machine None)
    = (Ok tt, m') /\
    _check_post_conditions (collab := Fixture.collaborators) (aprs m')
      Fixture.an_archive Fixture.a_now Fixture.t0 = Ok INTERVAL_WAIT.
Proof.
  eexists. split; [vm_compute; reflexivity |].
  refine (proj2 (gate_after_successful_post (collab := Fixture.collaborators)
                   Fixture.an_archive Fixture.a_now Fixture.a_now Fixture.t0
                   Fixture.sound (Fixture.a_machine None) _ (PyFloat 60.5)
                   _ _ _));
    vm_compute; reflexivity.
Defined.






(* ================================================================== *)
(** ** A record without weather data *)
(* ================================================================== *)

Section EmptyRecord.
Context {collab : Collaborators}.

(** X14.  A record that carries a time stamp and none of the weather
  fields is encoded with every placeholder: three dots in each wind,
  temperature and rain slot, five after [b], two after [h], and no
  radiation block at all.  Neither the unit system nor the unit
  helpers are consulted.  The suffix is [.DsVP] exactly when the
  hardware setting is the string VantagePro, and [.Unkn] otherwise. *)
Theorem packet_without_data (config : APRSConfig) (r : record) (dt : pyobj)
  (time_str lat_str lon_str : string) :
r !! "dateTime" = Some dt ->
(forall field, field ∈ weather_fields -> dict_get r field = None) ->
gmtime_strftime "@%d%H%Mz" dt = Ok time_str ->
latlon_string (latitude config) ("N", "S") "lat" = Ok lat_str ->
latlon_string (longitude config) ("E", "W") "lon" = Ok lon_str ->
format_weather_data config r =
  Ok (time_str +:+ lat_str +:+ lon_str
      +:+ "_.../...g...t...r...p...P...b.....h.." +:+ hardware_str config) /\
(hardware_str config = ".DsVP" <-> hardware config = "VantagePro") /\
(hardware_str config = ".Unkn" <-> hardware config <> "VantagePro").
Proof.
intros Hdt Habs Htime Hlat Hlon.
assert (Hf : forall field,
          In field ["windDir"; "windSpeed"; "windGust"; "outTemp"; "rain";
                    "rain24"; "dailyrain"; "barometer"; "outHumidity";
                    "radiation"] ->
          dict_get r field = None).
{ intros field Hin. apply Habs. apply list_elem_of_In. exact Hin. }
split; [| split].
- unfold format_weather_data, dict_item, _format_wind_temp, _format_rain,
    _format_barometer, _format_humidity, _format_radiation.
  cbn [mapM].
  rewrite Hdt, Hlat, Hlon.
  rewrite (Hf "windDir"), (Hf "windSpeed"), (Hf "windGust"), (Hf "outTemp"),
    (Hf "rain"), (Hf "rain24"), (Hf "dailyrain"), (Hf "barometer"),
    (Hf "outHumidity"), (Hf "radiation") by (cbn; tauto).
  cbn. rewrite Htime. cbn.
  rewrite !append_assoc. reflexivity.
- unfold hardware_str.
  destruct (String.eqb_spec (hardware config) "VantagePro");
    split; intros; congruence.
- unfold hardware_str.
  destruct (String.eqb_spec (hardware config) "VantagePro");
    split; intros; congruence.
Qed.
End EmptyRecord.

Lemma packet_without_data_witness :
  format_weather_data (collab := Fixture.collaborators) Fixture.a_config
    {[ "dateTime" := Some (PyInt Fixture.t0) ]}
  = Ok "@151234z4807.02N12230.00W_.../...g...t...r...p...P...b.....h...DsVP".
Proof.
  refine (proj1 (packet_without_data (collab := Fixture.collaborators)
                   Fixture.a_config {[ "dateTime" := Some (PyInt Fixture.t0) ]}
                   (Some (PyInt Fixture.t0)) "@151234z" "4807.02N" "12230.00W"
                   _ _ _ _ _));
    try (vm_compute; reflexivity).
  intros field Hin.
  apply list_elem_of_In in Hin. cbn in Hin.
  destruct Hin as [<- | [<- | [<- | [<- | [<- | [<- | [<- | [<- | [<- | [<- | []]]]]]]]]]];
    vm_compute; reflexivity.
Defined.
